(** * tamago / imx6: hardware bring-up, silicon identification and UART driver

    A shallow embedding of [imx6/uart.go] and of the [imx6] package file that
    holds [hwinit], [initRNG], [SiliconVersion], [Model] and [Reboot].

    Registers are 32-bit words ([Z] with the wrap-around written out).  Every
    access to a memory-mapped register goes through a [Bus]: an abstract
    device whose loads may change its state (a receive FIFO pops on read), so
    that the facts proved about the driver hold for real hardware and for a
    mock register file alike.  Every access is also appended to a trace, in
    program order. *)

From Stdlib Require Import ZArith List Lia Bool String.
From stdpp Require Import base option gmap.

Local Open Scope Z_scope.
Import ListNotations.

(** ** 32-bit words *)

Definition wrap32 (x : Z) : Z := x mod 2 ^ 32.
Definition wrap16 (x : Z) : Z := x mod 2 ^ 16.

(** ** Register map (the constants of the two source files) *)

Definition UART_DEFAULT_BAUDRATE : Z := 115200.
Definition ESC : Z := 0x1b.

Definition UART1_BASE : Z := 0x02020000.
Definition UART2_BASE : Z := 0x021e8000.
Definition UART3_BASE : Z := 0x021ec000.
Definition UART4_BASE : Z := 0x021f0000.
Definition UART5_BASE : Z := 0x021f4000.
Definition UART6_BASE : Z := 0x021fc000.
Definition UART7_BASE : Z := 0x02018000.
Definition UART8_BASE : Z := 0x02024000.

Definition UARTx_URXD : Z := 0x0000.
Definition URXD_CHARRDY : Z := 15.
Definition URXD_ERR : Z := 14.
Definition URXD_OVRRUN : Z := 13.
Definition URXD_FRMERR : Z := 12.
Definition URXD_BRK : Z := 11.
Definition URXD_PRERR : Z := 10.
Definition URXD_RX_DATA : Z := 0.

Definition UARTx_UTXD : Z := 0x0040.
Definition UTXD_TX_DATA : Z := 0.

Definition UARTx_UCR1 : Z := 0x0080.
Definition UCR1_UARTEN : Z := 0.

Definition UARTx_UCR2 : Z := 0x0084.
Definition UCR2_IRTS : Z := 14.
Definition UCR2_WS : Z := 5.
Definition UCR2_TXEN : Z := 2.
Definition UCR2_RXEN : Z := 1.
Definition UCR2_SRST : Z := 0.

Definition UARTx_UCR3 : Z := 0x0088.
Definition UCR3_DSR : Z := 10.
Definition UCR3_DCD : Z := 9.
Definition UCR3_RI : Z := 8.
Definition UCR3_ADNIMP : Z := 7.
Definition UCR3_RXDMUXSEL : Z := 2.

Definition UARTx_UCR4 : Z := 0x008c.
Definition UCR4_CTSTL : Z := 10.

Definition UARTx_UFCR : Z := 0x0090.
Definition UFCR_TXTL : Z := 10.
Definition UFCR_RFDIV : Z := 7.
Definition UFCR_DCEDTE : Z := 6.
Definition UFCR_RXTL : Z := 0.

Definition UARTx_USR2 : Z := 0x0098.
Definition USR2_RDR : Z := 0.

Definition UARTx_UESC : Z := 0x009c.
Definition UARTx_UTIM : Z := 0x00a0.
Definition UARTx_UBIR : Z := 0x00a4.
Definition UARTx_UBMR : Z := 0x00a8.

Definition UARTx_UTS : Z := 0x00b4.
Definition UTS_TXEMPTY : Z := 6.

Definition WDOG1_WCR : Z := 0x020bc000.
Definition OCOTP_CFG0 : Z := 0x021bc410.
Definition OCOTP_CFG1 : Z := 0x021bc420.
Definition USB_ANALOG_DIGPROG : Z := 0x020c8260.

Definition SRC_SCR : Z := 0x020d8000.
Definition SCR_WARM_RESET_ENABLE : Z := 0.

Definition SYS_CNT_BASE : Z := 0x021dc000.

Definition IMX6Q : Z := 0x63.
Definition IMX6UL : Z := 0x64.
Definition IMX6ULL : Z := 0x65.

(** The clock-tree constants used by [uartclk] are declared in a file of the
    package that is not part of the sources at hand: they are parameters.
    The frequencies are [uint32] constants and the positions are bit
    offsets. *)
Class ClockTree := {
  CCM_CSCDR1 : Z;
  CSCDR1_UART_CLK_SEL : Z;
  CSCDR1_CLK_PODF : Z;
  OSC_FREQ : Z;
  VCO_FREQ : Z;
  CSCDR1_UART_CLK_SEL_pos : 0 <= CSCDR1_UART_CLK_SEL;
  CSCDR1_CLK_PODF_pos : 0 <= CSCDR1_CLK_PODF;
  OSC_FREQ_u32 : 0 <= OSC_FREQ < 2 ^ 32;
  VCO_FREQ_u32 : 0 <= VCO_FREQ < 2 ^ 32
}.

(** ** The bus and the trace *)

(** Calls into collaborators whose code is outside the two files: the
    methods of [arm.CPU] and [RNGB.Init].  They are recorded, not
    interpreted. *)
Inductive extcall : Type :=
| ARM_Init
| ARM_EnableVFP
| ARM_CacheEnable
| ARM_InitGlobalTimers
| ARM_InitGenericTimers (base freq : Z)
| RNGB_Init.

Inductive event : Type :=
| Load32 (addr val : Z)
| Store32 (addr val : Z)
| Store16 (addr val : Z)
| Call (c : extcall).

(** A device behind the memory-mapped registers.  A load returns a 32-bit
    word and the device's next state. *)
Class Bus (D : Type) := {
  load32 : Z -> D -> Z * D;
  store32 : Z -> Z -> D -> D;
  store16 : Z -> Z -> D -> D;
  load32_range : forall a d, 0 <= fst (load32 a d) < 2 ^ 32
}.

(** [type Uart struct]: the mutex and the thirteen register addresses. *)
Record Uart : Type := mkUart {
  mu : bool;
  urxd : Z; utxd : Z; ucr1 : Z; ucr2 : Z; ucr3 : Z; ucr4 : Z; ufcr : Z;
  usr2 : Z; uesc : Z; utim : Z; ubir : Z; ubmr : Z; uts : Z
}.

(** The two values [getRandomDataFn] is bound to by [initRNG]. *)
Inductive rng_source : Type :=
| RNGB_getRandomData
| getLCGData.

(** The package-level variables, the device and the trace.  [UART2] is the
    one [Uart] object the package allocates; the methods of [*Uart] act on
    it. *)
Record World (D : Type) : Type := mkWorld {
  bus : D;
  trace : list event;
  Family : Z;
  Native : bool;
  getRandomDataFn : option rng_source;
  UART2 : Uart
}.

Arguments mkWorld {D}.
Arguments bus {D}.
Arguments trace {D}.
Arguments Family {D}.
Arguments Native {D}.
Arguments getRandomDataFn {D}.
Arguments UART2 {D}.

(** The package-level variables at program start (Go zero values; [UART2]
    is [&Uart{}]). *)
Definition Uart_zero : Uart := mkUart false 0 0 0 0 0 0 0 0 0 0 0 0 0.

Definition boot {D} (d : D) : World D :=
  mkWorld d [] 0 false None Uart_zero.

(** ** A state monad with panics and pending busy-waits *)

Inductive outcome (D A : Type) : Type :=
| Done (a : A) (w : World D)
| Fault (w : World D)
| Spin (w : World D).

Arguments Done {D A}.
Arguments Fault {D A}.
Arguments Spin {D A}.

Definition world_of {D A} (o : outcome D A) : World D :=
  match o with
  | Done _ w => w
  | Fault w => w
  | Spin w => w
  end.

Definition M (D A : Type) : Type := World D -> outcome D A.

Definition ret {D A} (a : A) : M D A := fun w => Done a w.

Definition bind {D A B} (c : M D A) (k : A -> M D B) : M D B :=
  fun w =>
    match c w with
    | Done a w' => k a w'
    | Fault w' => Fault w'
    | Spin w' => Spin w'
    end.

Notation "'do' x <- c ; k" := (bind c (fun x => k))
  (at level 10, x name, c at level 100, k at level 200).
Notation "c ;; k" := (bind c (fun _ => k))
  (at level 100, k at level 200, right associativity).

Definition emit {D} (e : event) : M D unit :=
  fun w => Done tt (mkWorld (bus w) (trace w ++ [e]) (Family w) (Native w)
                            (getRandomDataFn w) (UART2 w)).

Definition call {D} (c : extcall) : M D unit := emit (Call c).

(** Go's integer division panics on a zero divisor. *)
Definition udiv {D} (a b : Z) : M D Z :=
  fun w => if b =? 0 then Fault w else Done (a / b) w.

(** ** Register access primitives (package [internal/reg]) and bit helpers
       (package [internal/bits]) *)

Section Reg.
Context {D : Type} `{Bus D}.

Definition set_bus (d : D) (w : World D) : World D :=
  mkWorld d (trace w) (Family w) (Native w) (getRandomDataFn w) (UART2 w).

(** Modelled from the spec: [reg.Read] is not in the sources; "read(addr)
    -> word", a direct uncached access. *)
Definition reg_Read (addr : Z) : M D Z :=
  fun w =>
    let r := load32 addr (bus w) in
    (emit (Load32 addr (fst r)) ;; ret (fst r)) (set_bus (snd r) w).

(** Modelled from the spec: [reg.Write] is not in the sources;
    "write(addr, word)". *)
Definition reg_Write (addr val : Z) : M D unit :=
  fun w => emit (Store32 addr val) (set_bus (store32 addr val (bus w)) w).

(** Modelled from the spec: [reg.Write16] is not in the sources; the write
    of a 16-bit register with an access of that width. *)
Definition reg_Write16 (addr val : Z) : M D unit :=
  fun w => emit (Store16 addr val) (set_bus (store16 addr val (bus w)) w).

(** Modelled from the spec: [reg.Get] is not in the sources; "get(addr,
    bitOffset, mask) -> value", the field of the word read at [addr]. *)
Definition reg_Get (addr pos mask : Z) : M D Z :=
  do r <- reg_Read addr;
  ret (Z.land (Z.shiftr r pos) mask).

(** Modelled from the spec: [reg.Set] is not in the sources; "set(addr,
    bitOffset)", a read-modify-write of the word. *)
Definition reg_Set (addr pos : Z) : M D unit :=
  do r <- reg_Read addr;
  reg_Write addr (wrap32 (Z.lor r (Z.shiftl 1 pos))).

(** Modelled from the spec: [reg.Clear] is not in the sources;
    "clear(addr, bitOffset)", a read-modify-write of the word. *)
Definition reg_Clear (addr pos : Z) : M D unit :=
  do r <- reg_Read addr;
  reg_Write addr (Z.land r (Z.lnot (Z.shiftl 1 pos))).

(** Modelled from the spec: [reg.SetN] is not in the sources;
    "setField(addr, bitOffset, mask, value)". *)
Definition reg_SetN (addr pos mask val : Z) : M D unit :=
  do r <- reg_Read addr;
  reg_Write addr
    (wrap32 (Z.lor (Z.land r (Z.lnot (Z.shiftl mask pos))) (Z.shiftl val pos))).

(** Modelled from the spec: [reg.Wait] is not in the sources;
    "waitUntil(addr, bitOffset, mask, expected)" busy-polls with no
    timeout.  [fuel] bounds the number of polls observed: with the
    condition still false after [fuel] polls the wait is still pending. *)
Fixpoint reg_Wait (fuel : nat) (addr pos mask val : Z) : M D unit :=
  match fuel with
  | O => fun w => Spin w
  | S n =>
      do v <- reg_Get addr pos mask;
      if v =? val then ret tt else reg_Wait n addr pos mask val
  end.

End Reg.

(** Modelled from the spec: [bits.Set] is not in the sources; the
    counterpart of "set" on a local word. *)
Definition bits_Set (x pos : Z) : Z := wrap32 (Z.lor x (Z.shiftl 1 pos)).

(** Modelled from the spec: [bits.SetN] is not in the sources; the
    counterpart of "setField" on a local word. *)
Definition bits_SetN (x pos mask val : Z) : Z :=
  wrap32 (Z.lor (Z.land x (Z.lnot (Z.shiftl mask pos))) (Z.shiftl val pos)).

(** ** [imx6/uart.go] *)

Section UartDriver.
Context {D : Type} `{Bus D} `{ClockTree}.

Definition get_hw : M D Uart := fun w => Done (UART2 w) w.

Definition put_hw (hw : Uart) : M D unit :=
  fun w => Done tt (mkWorld (bus w) (trace w) (Family w) (Native w)
                            (getRandomDataFn w) hw).

(** [sync.Mutex]: with one thread of control, [Lock] on a held mutex
    never returns. *)
Definition Lock : M D unit :=
  fun w =>
    let hw := UART2 w in
    if mu hw then Spin w
    else put_hw (mkUart true (urxd hw) (utxd hw) (ucr1 hw) (ucr2 hw) (ucr3 hw)
                        (ucr4 hw) (ufcr hw) (usr2 hw) (uesc hw) (utim hw)
                        (ubir hw) (ubmr hw) (uts hw)) w.

Definition Unlock : M D unit :=
  fun w =>
    let hw := UART2 w in
    put_hw (mkUart false (urxd hw) (utxd hw) (ucr1 hw) (ucr2 hw) (ucr3 hw)
                   (ucr4 hw) (ufcr hw) (usr2 hw) (uesc hw) (utim hw)
                   (ubir hw) (ubmr hw) (uts hw)) w.

Definition uartclk : M D Z :=
  do sel <- reg_Get CCM_CSCDR1 CSCDR1_UART_CLK_SEL 1;
  let freq := if sel =? 1 then OSC_FREQ else VCO_FREQ in
  do podf <- reg_Get CCM_CSCDR1 CSCDR1_CLK_PODF 63;
  udiv freq (podf + 1).

Definition txEmpty : M D bool :=
  do hw <- get_hw;
  do v <- reg_Get (uts hw) UTS_TXEMPTY 1;
  ret (v =? 0).

Definition rxReady : M D bool :=
  do hw <- get_hw;
  do v <- reg_Get (usr2 hw) USR2_RDR 1;
  ret (v =? 1).

Definition rxError : M D bool :=
  do hw <- get_hw;
  do v <- reg_Get (urxd hw) URXD_PRERR 31;
  ret (negb (v =? 0)).

Definition ucr3_value : Z :=
  bits_Set (bits_Set (bits_Set (bits_Set (bits_Set 0 UCR3_DSR) UCR3_DCD)
                               UCR3_RI) UCR3_ADNIMP) UCR3_RXDMUXSEL.

Definition ufcr_value : Z :=
  bits_SetN (bits_SetN (bits_SetN 0 UFCR_RFDIV 7 4) UFCR_TXTL 63 2)
            UFCR_RXTL 63 1.

Definition ucr2_value : Z :=
  bits_Set (bits_Set (bits_Set (bits_Set (bits_Set 0 UCR2_IRTS) UCR2_WS)
                               UCR2_TXEN) UCR2_RXEN) UCR2_SRST.

Definition Init (fuel : nat) (baudrate : Z) : M D unit :=
  Lock ;;
  do hw <- get_hw;
  reg_Write (ucr1 hw) 0 ;;
  reg_Write (ucr2 hw) 0 ;;
  reg_Wait fuel (ucr2 hw) UCR2_SRST 1 1 ;;
  reg_Write (ucr3 hw) ucr3_value ;;
  reg_SetN (ucr4 hw) UCR4_CTSTL 63 32 ;;
  reg_Write (uesc hw) ESC ;;
  reg_Write (utim hw) 0 ;;
  reg_Write (ufcr hw) ufcr_value ;;
  do f <- uartclk;
  do clk <- udiv f 6;
  do ubmr_v <- udiv clk (wrap32 (2 * baudrate));
  reg_Write (ubir hw) 15 ;;
  reg_Write (ubmr hw) ubmr_v ;;
  reg_Write (ucr2 hw) ucr2_value ;;
  reg_Set (ucr1 hw) UCR1_UARTEN ;;
  Unlock.

(** The thirteen assignments that open [init]: the register addresses of
    the block at [base]; the mutex is not touched. *)
Definition Uart_at (m : bool) (base : Z) : Uart :=
  mkUart m
         (wrap32 (base + UARTx_URXD)) (wrap32 (base + UARTx_UTXD))
         (wrap32 (base + UARTx_UCR1)) (wrap32 (base + UARTx_UCR2))
         (wrap32 (base + UARTx_UCR3)) (wrap32 (base + UARTx_UCR4))
         (wrap32 (base + UARTx_UFCR)) (wrap32 (base + UARTx_USR2))
         (wrap32 (base + UARTx_UESC)) (wrap32 (base + UARTx_UTIM))
         (wrap32 (base + UARTx_UBIR)) (wrap32 (base + UARTx_UBMR))
         (wrap32 (base + UARTx_UTS)).

Definition init (fuel : nat) (base baudrate : Z) : M D unit :=
  do hw <- get_hw;
  put_hw (Uart_at (mu hw) base) ;;
  Init fuel baudrate.

(** [for hw.txEmpty() {}]: at most [fuel] evaluations of the condition. *)
Fixpoint Write_wait (fuel : nat) : M D unit :=
  match fuel with
  | O => fun w => Spin w
  | S n =>
      do busy <- txEmpty;
      if busy then Write_wait n else ret tt
  end.

Definition Write (fuel : nat) (c : Z) : M D unit :=
  do hw <- get_hw;
  reg_Write (utxd hw) c ;;
  Write_wait fuel.

Definition Read : M D (Z * bool) :=
  do ready <- rxReady;
  if negb ready then ret (0, false)
  else
    do err <- rxError;
    if err then ret (0, false)
    else
      do hw <- get_hw;
      do v <- reg_Get (urxd hw) URXD_RX_DATA 255;
      ret (v mod 2 ^ 8, true).

End UartDriver.

(** ** The [imx6] package file: identification, bring-up, entropy, reboot *)

(** [binary.LittleEndian.PutUint32(b[off:off+4], v)] of Go's standard
    library, on the array [b] the slice is a window of: the four bytes of
    [v], least significant first.  Both uses below are within the array. *)
Definition PutUint32 (off : nat) (v : Z) (b : list Z) : list Z :=
  <[(off + 3)%nat := Z.shiftr v 24 mod 2 ^ 8]>
    (<[(off + 2)%nat := Z.shiftr v 16 mod 2 ^ 8]>
       (<[(off + 1)%nat := Z.shiftr v 8 mod 2 ^ 8]>
          (<[off := v mod 2 ^ 8]> b))).

Section Soc.
Context {D : Type} `{Bus D} `{ClockTree}.

Definition get_Family : M D Z := fun w => Done (Family w) w.

Definition get_Native : M D bool := fun w => Done (Native w) w.

Definition set_Family (f : Z) : M D unit :=
  fun w => Done tt (mkWorld (bus w) (trace w) f (Native w)
                            (getRandomDataFn w) (UART2 w)).

Definition set_Native (b : bool) : M D unit :=
  fun w => Done tt (mkWorld (bus w) (trace w) (Family w) b
                            (getRandomDataFn w) (UART2 w)).

Definition set_getRandomDataFn (f : rng_source) : M D unit :=
  fun w => Done tt (mkWorld (bus w) (trace w) (Family w) (Native w)
                            (Some f) (UART2 w)).

Definition SiliconVersion : M D (Z * Z * Z * Z) :=
  do sv <- reg_Read USB_ANALOG_DIGPROG;
  let family := Z.land (Z.shiftr sv 16) 0xff in
  let revMajor := Z.land (Z.shiftr sv 8) 0xff in
  let revMinor := Z.land sv 0xff in
  ret (sv, family, revMajor, revMinor).

(** The [switch Family] that ends [hwinit]. *)
Definition start_timers : M D unit :=
  do family <- get_Family;
  if family =? IMX6Q then call ARM_InitGlobalTimers
  else if (family =? IMX6UL) || (family =? IMX6ULL) then
    do native <- get_Native;
    if negb native then call (ARM_InitGenericTimers SYS_CNT_BASE 62500000)
    else call (ARM_InitGenericTimers SYS_CNT_BASE 8000000)
  else call ARM_InitGlobalTimers.

Definition hwinit (fuel : nat) : M D unit :=
  call ARM_Init ;;
  call ARM_EnableVFP ;;
  call ARM_CacheEnable ;;
  do v <- SiliconVersion;
  let '(_, fam, revMajor, revMinor) := v in
  set_Family fam ;;
  (if negb (revMajor =? 0) || negb (revMinor =? 0)
   then set_Native true else ret tt) ;;
  init fuel UART2_BASE UART_DEFAULT_BAUDRATE ;;
  start_timers.

Definition initRNG : M D unit :=
  do family <- get_Family;
  do native <- get_Native;
  if (family =? IMX6ULL) && native then
    call RNGB_Init ;;
    set_getRandomDataFn RNGB_getRandomData
  else
    set_getRandomDataFn getLCGData.

Definition Model : M D string :=
  do family <- get_Family;
  ret (if family =? IMX6Q then "i.MX6Q"%string
       else if family =? IMX6UL then "i.MX6UL"%string
       else if family =? IMX6ULL then "i.MX6ULL"%string
       else "unknown"%string).

Definition Reboot : M D unit :=
  reg_Clear SRC_SCR SCR_WARM_RESET_ENABLE ;;
  reg_Write16 WDOG1_WCR 0.

(** [uid] is the array [[8]byte], zero at first; the two slices [uid[0:4]]
    and [uid[4:8]] are windows on it. *)
Definition UniqueID : M D (list Z) :=
  do cfg0 <- reg_Read OCOTP_CFG0;
  do cfg1 <- reg_Read OCOTP_CFG1;
  ret (PutUint32 4 cfg1 (PutUint32 0 cfg0 (replicate 8 0))).

End Soc.

(** ** Two devices *)

(** A mock register backend: a register file keyed by address, where a load
    returns what was last stored.  A 16-bit store replaces the low half of
    the word at its address. *)
Definition mock_load32 (a : Z) (m : gmap Z Z) : Z * gmap Z Z :=
  (wrap32 (default 0 (m !! a)), m).

Definition mock_store32 (a v : Z) (m : gmap Z Z) : gmap Z Z :=
  <[a := wrap32 v]> m.

Definition mock_store16 (a v : Z) (m : gmap Z Z) : gmap Z Z :=
  <[a := Z.lor (Z.land (wrap32 (default 0 (m !! a))) 0xffff0000) (wrap16 v)]> m.

Definition mock_load16 (a : Z) (m : gmap Z Z) : Z :=
  wrap16 (fst (mock_load32 a m)).

#[export] Instance mock_bus : Bus (gmap Z Z).
Proof.
  refine {| load32 := mock_load32;
            store32 := mock_store32;
            store16 := mock_store16 |}.
  intros a m. cbn [mock_load32 fst]. unfold wrap32.
  apply Z.mod_pos_bound. lia.
Defined.

(** A simulated UART behind a register file: the receive-data register pops
    a FIFO, the receiver-ready flag follows the FIFO, a software reset takes
    [srst_wait] polls to deassert and a transmission takes [tx_wait] polls to
    drain.  It serves to run the driver; the driver's properties are proved
    for every [Bus]. *)
Record Sim : Type := mkSim {
  sim_base : Z;
  sim_regs : gmap Z Z;
  sim_rxfifo : list Z;
  sim_srst_wait : nat;
  sim_tx_wait : nat
}.

Definition sim_load32 (a : Z) (s : Sim) : Z * Sim :=
  if a =? sim_base s + UARTx_URXD then
    match sim_rxfifo s with
    | [] => (0, s)
    | x :: r => (wrap32 x, mkSim (sim_base s) (sim_regs s) r
                                 (sim_srst_wait s) (sim_tx_wait s))
    end
  else if a =? sim_base s + UARTx_USR2 then
    (match sim_rxfifo s with [] => 0 | _ :: _ => 1 end, s)
  else if a =? sim_base s + UARTx_UCR2 then
    match sim_srst_wait s with
    | O => (wrap32 (Z.lor (default 0 (sim_regs s !! a)) 1), s)
    | S n => (wrap32 (Z.land (default 0 (sim_regs s !! a)) (Z.lnot 1)),
              mkSim (sim_base s) (sim_regs s) (sim_rxfifo s) n (sim_tx_wait s))
    end
  else if a =? sim_base s + UARTx_UTS then
    match sim_tx_wait s with
    | O => (wrap32 (Z.shiftl 1 UTS_TXEMPTY), s)
    | S n => (0, mkSim (sim_base s) (sim_regs s) (sim_rxfifo s)
                       (sim_srst_wait s) n)
    end
  else (wrap32 (default 0 (sim_regs s !! a)), s).

Definition sim_store32 (a v : Z) (s : Sim) : Sim :=
  if a =? sim_base s + UARTx_UCR2 then
    mkSim (sim_base s) (<[a := wrap32 v]> (sim_regs s)) (sim_rxfifo s)
          (if Z.testbit v UCR2_SRST then sim_srst_wait s else 2%nat)
          (sim_tx_wait s)
  else if a =? sim_base s + UARTx_UTXD then
    mkSim (sim_base s) (sim_regs s) (sim_rxfifo s) (sim_srst_wait s) 3%nat
  else
    mkSim (sim_base s) (<[a := wrap32 v]> (sim_regs s)) (sim_rxfifo s)
          (sim_srst_wait s) (sim_tx_wait s).

Definition sim_store16 (a v : Z) (s : Sim) : Sim :=
  mkSim (sim_base s)
        (<[a := Z.lor (Z.land (wrap32 (default 0 (sim_regs s !! a))) 0xffff0000)
                      (wrap16 v)]> (sim_regs s))
        (sim_rxfifo s) (sim_srst_wait s) (sim_tx_wait s).

#[export] Instance sim_bus : Bus Sim.
Proof.
  refine {| load32 := sim_load32;
            store32 := sim_store32;
            store16 := sim_store16 |}.
  intros a s. unfold sim_load32, wrap32.
  repeat match goal with
         | |- context [if ?b then _ else _] => destruct b
         | |- context [match ?x with _ => _ end] => destruct x
         end; cbn [fst]; try (apply Z.mod_pos_bound); lia.
Defined.

(** Sample clock-tree constants, to run [uartclk] on. *)
#[export] Instance sample_clock : ClockTree.
Proof.
  refine {| CCM_CSCDR1 := 0x020c4024;
            CSCDR1_UART_CLK_SEL := 6;
            CSCDR1_CLK_PODF := 0;
            OSC_FREQ := 24000000;
            VCO_FREQ := 80000000 |}; lia.
Defined.

Definition sim0 : Sim := mkSim UART2_BASE ∅ [] 0 0.

(** The console UART of a freshly booted simulated board, its addresses
    assigned. *)
Definition console (s : Sim) : World Sim :=
  mkWorld s [] 0 false None (Uart_at false UART2_BASE).

(** ** Notions the properties are stated with *)

Section Notions.
Context {D : Type} `{Bus D} `{ClockTree}.

(** [c] relates each world to the world it leaves, whatever the outcome. *)
Definition steps {A} (R : World D -> World D -> Prop) (c : M D A) : Prop :=
  forall w, R w (world_of (c w)).

(** The package-level variables are left alone. *)
Definition same_globals (w w' : World D) : Prop :=
  Family w' = Family w /\ Native w' = Native w /\
  getRandomDataFn w' = getRandomDataFn w.

(** Only register accesses are added to the trace. *)
Definition is_access (e : event) : Prop :=
  match e with
  | Call _ => False
  | _ => True
  end.

Definition adds_accesses (w w' : World D) : Prop :=
  exists l, trace w' = trace w ++ l /\ Forall is_access l.

(** A computation that never panics. *)
Definition no_fault {A} (c : M D A) : Prop := forall w w', c w <> Fault w'.

(** Both at once: what the register primitives and the driver do. *)
Definition quiet (w w' : World D) : Prop :=
  same_globals w w' /\ adds_accesses w w'.

(** [settles addr pos mask val n d d']: polling the field at [addr] from
    device state [d], the [n]-th poll is the first that reads [val], and it
    leaves the device in [d']. *)
Inductive settles (addr pos mask val : Z) : nat -> D -> D -> Prop :=
| settles_now d :
    Z.land (Z.shiftr (fst (load32 addr d)) pos) mask = val ->
    settles addr pos mask val 1 d (snd (load32 addr d))
| settles_later n d d' :
    Z.land (Z.shiftr (fst (load32 addr d)) pos) mask <> val ->
    settles addr pos mask val n (snd (load32 addr d)) d' ->
    settles addr pos mask val (S n) d d'.

(** The clock [uartclk] resolves from the two words it reads at
    [CCM_CSCDR1]. *)
Definition uartclk_of (v1 v2 : Z) : Z :=
  (if Z.land (Z.shiftr v1 CSCDR1_UART_CLK_SEL) 1 =? 1 then OSC_FREQ else VCO_FREQ)
  / (Z.land (Z.shiftr v2 CSCDR1_CLK_PODF) 63 + 1).

(** The world [Init] polls for the reset deassertion in: the mutex taken,
    both control registers cleared. *)
Definition Init_armed (w : World D) : World D :=
  let hw := UART2 w in
  mkWorld (store32 (ucr2 hw) 0 (store32 (ucr1 hw) 0 (bus w)))
          (trace w ++ [Store32 (ucr1 hw) 0; Store32 (ucr2 hw) 0])
          (Family w) (Native w) (getRandomDataFn w)
          (mkUart true (urxd hw) (utxd hw) (ucr1 hw) (ucr2 hw) (ucr3 hw)
                  (ucr4 hw) (ufcr hw) (usr2 hw) (uesc hw) (utim hw)
                  (ubir hw) (ubmr hw) (uts hw)).

(** The part of [Init] that follows the reset wait, for the receiver
    [hw]. *)
Definition Init_tail (hw : Uart) (baudrate : Z) : M D unit :=
  reg_Write (ucr3 hw) ucr3_value ;;
  reg_SetN (ucr4 hw) UCR4_CTSTL 63 32 ;;
  reg_Write (uesc hw) ESC ;;
  reg_Write (utim hw) 0 ;;
  reg_Write (ufcr hw) ufcr_value ;;
  do f <- uartclk;
  do clk <- udiv f 6;
  do ubmr_v <- udiv clk (wrap32 (2 * baudrate));
  reg_Write (ubir hw) 15 ;;
  reg_Write (ubmr hw) ubmr_v ;;
  reg_Write (ucr2 hw) ucr2_value ;;
  reg_Set (ucr1 hw) UCR1_UARTEN ;;
  Unlock.

(** The device as [Init] leaves it when it calls [uartclk], from the state
    [d] in which the reset wait returned: UCR3, UCR4, UESC, UTIM and UFCR
    programmed. *)
Definition Init_programmed (hw : Uart) (d : D) : D :=
  let d3 := store32 (ucr3 hw) ucr3_value d in
  let x := fst (load32 (ucr4 hw) d3) in
  store32 (ufcr hw) ufcr_value
    (store32 (utim hw) 0
       (store32 (uesc hw) ESC
          (store32 (ucr4 hw)
             (wrap32 (Z.lor (Z.land x (Z.lnot (Z.shiftl 63 UCR4_CTSTL)))
                            (Z.shiftl 32 UCR4_CTSTL)))
             (snd (load32 (ucr4 hw) d3))))).

(** The three words a call of [Read] can load, each from the device state
    the previous load left: the status word, the word examined for errors,
    the word returned. *)
Definition Read_status (w : World D) : Z :=
  fst (load32 (usr2 (UART2 w)) (bus w)).

Definition Read_examined (w : World D) : Z :=
  fst (load32 (urxd (UART2 w)) (snd (load32 (usr2 (UART2 w)) (bus w)))).

Definition Read_data (w : World D) : Z :=
  fst (load32 (urxd (UART2 w))
         (snd (load32 (urxd (UART2 w)) (snd (load32 (usr2 (UART2 w)) (bus w)))))).

(** The world in which [hwinit] initializes the console: the CPU set up,
    the chip identified, [Family] and [Native] recorded. *)
Definition identified (w : World D) : World D :=
  let sv := fst (load32 USB_ANALOG_DIGPROG (bus w)) in
  mkWorld (snd (load32 USB_ANALOG_DIGPROG (bus w)))
          (trace w ++ [Call ARM_Init; Call ARM_EnableVFP; Call ARM_CacheEnable;
                       Load32 USB_ANALOG_DIGPROG sv])
          (Z.land (Z.shiftr sv 16) 0xff)
          (if negb (Z.land (Z.shiftr sv 8) 0xff =? 0) || negb (Z.land sv 0xff =? 0)
           then true else Native w)
          (getRandomDataFn w) (UART2 w).

(** The timer source the [switch Family] of [hwinit] starts. *)
Definition timer_source (family : Z) (native : bool) : extcall :=
  if family =? IMX6Q then ARM_InitGlobalTimers
  else if (family =? IMX6UL) || (family =? IMX6ULL) then
    if negb native then ARM_InitGenericTimers SYS_CNT_BASE 62500000
    else ARM_InitGenericTimers SYS_CNT_BASE 8000000
  else ARM_InitGlobalTimers.

(** The world in which [hwinit] calls [Init]: the addresses of UART2
    assigned. *)
Definition hwinit_console (w : World D) : World D :=
  mkWorld (bus (identified w)) (trace (identified w)) (Family (identified w))
          (Native (identified w)) (getRandomDataFn w)
          (Uart_at (mu (UART2 w)) UART2_BASE).

(** [binary.LittleEndian.Uint32(b[off:off+4])] of Go's standard library,
    the decoder the encoding of [UniqueID] is checked against. *)
Definition Uint32 (off : nat) (b : list Z) : Z :=
  Z.lor (Z.lor (Z.lor (b !!! off) (Z.shiftl (b !!! (off + 1)%nat) 8))
               (Z.shiftl (b !!! (off + 2)%nat) 16))
        (Z.shiftl (b !!! (off + 3)%nat) 24).

(** A [Uart] with its mutex released: its register block. *)
Definition unlocked (hw : Uart) : Uart :=
  mkUart false (urxd hw) (utxd hw) (ucr1 hw) (ucr2 hw) (ucr3 hw) (ucr4 hw)
         (ufcr hw) (usr2 hw) (uesc hw) (utim hw) (ubir hw) (ubmr hw) (uts hw).

(** The same, with the mutex held. *)
Definition locked (hw : Uart) : Uart :=
  mkUart true (urxd hw) (utxd hw) (ucr1 hw) (ucr2 hw) (ucr3 hw) (ucr4 hw)
         (ufcr hw) (usr2 hw) (uesc hw) (utim hw) (ubir hw) (ubmr hw) (uts hw).

(** The addresses of a [Uart], in the order of the struct. *)
Definition addresses (hw : Uart) : list Z :=
  [urxd hw; utxd hw; ucr1 hw; ucr2 hw; ucr3 hw; ucr4 hw; ufcr hw;
   usr2 hw; uesc hw; utim hw; ubir hw; ubmr hw; uts hw].

(** The events of a trace that are stores. *)
Definition is_store (e : event) : bool :=
  match e with
  | Store32 _ _ | Store16 _ _ => true
  | _ => false
  end.

(** A world with the receiver replaced. *)
Definition with_uart (hw : Uart) (w : World D) : World D :=
  mkWorld (bus w) (trace w) (Family w) (Native w) (getRandomDataFn w) hw.

(** The address a register access goes to. *)
Definition access_addr (e : event) : option Z :=
  match e with
  | Load32 a _ | Store32 a _ | Store16 a _ => Some a
  | Call _ => None
  end.

End Notions.

(** ** Simulated boards to run the code on *)

(** A simulated board whose chip-version register holds [sv]. *)
Definition sim_version (sv : Z) : Sim :=
  mkSim UART2_BASE (<[USB_ANALOG_DIGPROG := sv]> ∅) [] 0 0.

(** A simulated console with two characters received and none in error. *)
Definition sim_rx2 : Sim := mkSim UART2_BASE ∅ [0x8041; 0x8042] 0 0.

(** The simulated console with the mutex of its UART held. *)
Definition console_held (s : Sim) : World Sim :=
  mkWorld s [] 0 false None (Uart_at true UART2_BASE).

(** One poll of the test register, and of the second control register, of
    the simulated console. *)
Definition poll_uts (s : Sim) : Sim :=
  snd (load32 (uts (UART2 (console sim0))) s).

Definition poll_ucr2 (s : Sim) : Sim :=
  snd (load32 (ucr2 (Uart_at false UART2_BASE)) s).

(** * Properties *)

(** ** Bit fields *)

Lemma land_255 x : Z.land x 255 = x mod 2 ^ 8.
Proof. change 255 with (Z.ones 8). apply Z.land_ones. lia. Qed.

Lemma field_bit x p : 0 <= p -> Z.land (Z.shiftr x p) 1 = Z.b2z (Z.testbit x p).
Proof.
  intros Hp. change (Z.land (Z.shiftr x p) 1)
    with (Z.land (Z.shiftr x p) (Z.ones 1)).
  rewrite Z.land_ones by lia.
  change (2 ^ 1) with 2. rewrite <- Z.bit0_mod, Z.shiftr_spec by lia.
  now rewrite Z.add_0_l.
Qed.

Lemma field_bit_eq1 x p :
  0 <= p -> (Z.land (Z.shiftr x p) 1 =? 1) = Z.testbit x p.
Proof. intros Hp. rewrite field_bit by exact Hp. now destruct (Z.testbit x p). Qed.

Lemma field_bit_eq0 x p :
  0 <= p -> (Z.land (Z.shiftr x p) 1 =? 0) = negb (Z.testbit x p).
Proof. intros Hp. rewrite field_bit by exact Hp. now destruct (Z.testbit x p). Qed.

(** The byte of [x] that starts at bit [p]. *)
Lemma field_byte_bits x p i :
  0 <= p -> 0 <= i ->
  Z.testbit (Z.land (Z.shiftr x p) 255) i = (i <? 8) && Z.testbit x (p + i).
Proof.
  intros Hp Hi. rewrite Z.land_spec, Z.shiftr_spec by lia.
  change 255 with (Z.ones 8). rewrite Z.testbit_ones by lia.
  replace (i + p) with (p + i) by lia.
  destruct (Z.leb_spec 0 i); [|lia]. cbn [andb].
  now rewrite andb_comm.
Qed.

Lemma field_mask_range x n : 0 <= n -> 0 <= Z.land x (Z.ones n) < 2 ^ n.
Proof. intros Hn. rewrite Z.land_ones by lia. apply Z.mod_pos_bound. lia. Qed.

(** A field of width [n] is zero exactly when each of its bits is. *)
Lemma field_zero_iff x p n :
  0 <= p -> 0 <= n ->
  Z.land (Z.shiftr x p) (Z.ones n) = 0 <->
  forall i, p <= i < p + n -> Z.testbit x i = false.
Proof.
  intros Hp Hn. split.
  - intros Hz i Hi.
    assert (Hb : Z.testbit (Z.land (Z.shiftr x p) (Z.ones n)) (i - p) = false)
      by (rewrite Hz; apply Z.bits_0).
    rewrite Z.land_spec, Z.shiftr_spec, Z.testbit_ones in Hb by lia.
    replace (i - p + p) with i in Hb by lia.
    destruct (Z.leb_spec 0 (i - p)); [|lia].
    destruct (Z.ltb_spec (i - p) n); [|lia].
    cbn [andb] in Hb. now rewrite andb_true_r in Hb.
  - intros Hall. apply Z.bits_inj'. intros i Hi.
    rewrite Z.land_spec, Z.shiftr_spec, Z.testbit_ones, Z.bits_0 by lia.
    destruct (Z.ltb_spec i n).
    + rewrite Hall by lia. reflexivity.
    + now rewrite andb_false_r, andb_false_r.
Qed.

Lemma wrap32_bit_low x i : 0 <= i < 32 -> Z.testbit (wrap32 x) i = Z.testbit x i.
Proof. intros Hi. unfold wrap32. apply Z.mod_pow2_bits_low. lia. Qed.

Lemma wrap32_small x : 0 <= x < 2 ^ 32 -> wrap32 x = x.
Proof. intros Hx. unfold wrap32. apply Z.mod_small. exact Hx. Qed.

(** Doubling a [uint32] wraps to zero for exactly two values. *)
Lemma double_wraps_to_zero b :
  0 <= b < 2 ^ 32 -> (wrap32 (2 * b) = 0 <-> b = 0 \/ b = 2 ^ 31).
Proof.
  intros Hb. unfold wrap32. split.
  - intros Hm. apply Z.mod_divide in Hm; [|lia]. destruct Hm as [k Hk]. lia.
  - intros [-> | ->]; reflexivity.
Qed.

(** ** Composition rules of the monad *)

Section Rules.
Context {D : Type}.

Lemma steps_bind {A B} (R : World D -> World D -> Prop)
      (c : M D A) (k : A -> M D B) :
  (forall x y z, R x y -> R y z -> R x z) ->
  steps R c -> (forall a, steps R (k a)) -> steps R (bind c k).
Proof.
  intros Htr Hc Hk w. unfold bind. specialize (Hc w).
  destruct (c w) as [a w1 | w1 | w1]; cbn in *; [|assumption..].
  eapply Htr; [exact Hc | apply Hk].
Qed.

Lemma same_globals_trans (x y z : World D) :
  same_globals x y -> same_globals y z -> same_globals x z.
Proof. unfold same_globals. intuition congruence. Qed.

Lemma adds_accesses_trans (x y z : World D) :
  adds_accesses x y -> adds_accesses y z -> adds_accesses x z.
Proof.
  intros [l1 [E1 F1]] [l2 [E2 F2]]. exists (l1 ++ l2). split.
  - rewrite E2, E1, app_assoc. reflexivity.
  - apply Forall_app. split; assumption.
Qed.

Lemma no_fault_bind {A B} (c : M D A) (k : A -> M D B) :
  no_fault c -> (forall a, no_fault (k a)) -> no_fault (bind c k).
Proof.
  intros Hc Hk w w'. unfold bind. specialize (Hc w).
  destruct (c w) as [a w1 | w1 | w1]; [apply Hk | | discriminate].
  exfalso. now apply (Hc w1).
Qed.

End Rules.

(** ** The register primitives and the driver leave the globals alone and
       add only register accesses *)

Section Quiet.
Context {D : Type} `{Bus D} `{ClockTree}.

Lemma quiet_refl (w : World D) : quiet w w.
Proof.
  split; [repeat split|]. exists []. split; [now rewrite app_nil_r | constructor].
Qed.

Lemma quiet_trans (x y z : World D) : quiet x y -> quiet y z -> quiet x z.
Proof.
  intros [G1 A1] [G2 A2]. split;
    eauto using same_globals_trans, adds_accesses_trans.
Qed.

Lemma quiet_access (w w' : World D) e :
  is_access e -> trace w' = trace w ++ [e] -> Family w' = Family w ->
  Native w' = Native w -> getRandomDataFn w' = getRandomDataFn w ->
  quiet w w'.
Proof.
  intros He Ht Hf Hn Hr. split; [repeat split; assumption|].
  exists [e]. split; [exact Ht | repeat constructor; exact He].
Qed.

Lemma quiet_silent (w w' : World D) :
  trace w' = trace w -> Family w' = Family w ->
  Native w' = Native w -> getRandomDataFn w' = getRandomDataFn w ->
  quiet w w'.
Proof.
  intros Ht Hf Hn Hr. split; [repeat split; assumption|].
  exists []. split; [now rewrite app_nil_r | constructor].
Qed.

Lemma quiet_ret {A} (a : A) : steps quiet (ret (D := D) a).
Proof. intros w. apply quiet_refl. Qed.

Lemma quiet_udiv a b : steps quiet (udiv (D := D) a b).
Proof. intros w. unfold udiv. destruct (b =? 0); apply quiet_refl. Qed.

Lemma quiet_reg_Read a : steps quiet (reg_Read a).
Proof. intros w. now apply (quiet_access _ _ (Load32 a (fst (load32 a (bus w))))). Qed.

Lemma quiet_reg_Write a v : steps quiet (reg_Write a v).
Proof. intros w. now apply (quiet_access _ _ (Store32 a v)). Qed.

Lemma quiet_reg_Write16 a v : steps quiet (reg_Write16 a v).
Proof. intros w. now apply (quiet_access _ _ (Store16 a v)). Qed.

Lemma quiet_get_hw : steps quiet (get_hw (D := D)).
Proof. intros w. apply quiet_refl. Qed.

Lemma quiet_put_hw hw : steps quiet (put_hw (D := D) hw).
Proof. intros w. now apply quiet_silent. Qed.

Lemma quiet_Lock : steps quiet (Lock (D := D)).
Proof.
  intros w. unfold Lock. destruct (mu (UART2 w)); [apply quiet_refl|].
  now apply quiet_silent.
Qed.

Lemma quiet_Unlock : steps quiet (Unlock (D := D)).
Proof. intros w. now apply quiet_silent. Qed.

Ltac quiet_step :=
  lazymatch goal with
  | |- steps _ (bind _ _) => apply steps_bind; [exact quiet_trans | | intros ?]
  | |- steps _ (ret _) => apply quiet_ret
  | |- steps _ (udiv _ _) => apply quiet_udiv
  | |- steps _ (reg_Read _) => apply quiet_reg_Read
  | |- steps _ (reg_Write _ _) => apply quiet_reg_Write
  | |- steps _ (reg_Write16 _ _) => apply quiet_reg_Write16
  | |- steps _ get_hw => apply quiet_get_hw
  | |- steps _ (put_hw _) => apply quiet_put_hw
  | |- steps _ Lock => apply quiet_Lock
  | |- steps _ Unlock => apply quiet_Unlock
  end.

Lemma quiet_reg_Get a p m : steps quiet (reg_Get a p m).
Proof. unfold reg_Get. repeat quiet_step. Qed.

Lemma quiet_reg_Set a p : steps quiet (reg_Set a p).
Proof. unfold reg_Set. repeat quiet_step. Qed.

Lemma quiet_reg_Clear a p : steps quiet (reg_Clear a p).
Proof. unfold reg_Clear. repeat quiet_step. Qed.

Lemma quiet_reg_SetN a p m v : steps quiet (reg_SetN a p m v).
Proof. unfold reg_SetN. repeat quiet_step. Qed.

Lemma quiet_reg_Wait fuel a p m v : steps quiet (reg_Wait fuel a p m v).
Proof.
  induction fuel as [|n IH]; cbn [reg_Wait].
  - intros w. apply quiet_refl.
  - apply steps_bind; [exact quiet_trans | apply quiet_reg_Get |].
    intros x. destruct (x =? v); [apply quiet_ret | exact IH].
Qed.

Lemma quiet_uartclk : steps quiet uartclk.
Proof.
  unfold uartclk, reg_Get. repeat quiet_step.
Qed.

Lemma quiet_Init fuel b : steps quiet (Init fuel b).
Proof.
  unfold Init.
  repeat first [ quiet_step
               | apply quiet_reg_Set | apply quiet_reg_SetN
               | apply quiet_reg_Wait | apply quiet_uartclk ].
Qed.

Lemma quiet_init fuel base b : steps quiet (init fuel base b).
Proof. unfold init. repeat first [quiet_step | apply quiet_Init]. Qed.

End Quiet.

(** ** Busy-waits *)

Section Waits.
Context {D : Type} `{Bus D}.

Lemma reg_Get_run addr pos mask (w : World D) :
  reg_Get addr pos mask w =
  Done (Z.land (Z.shiftr (fst (load32 addr (bus w))) pos) mask)
       (mkWorld (snd (load32 addr (bus w)))
                (trace w ++ [Load32 addr (fst (load32 addr (bus w)))])
                (Family w) (Native w) (getRandomDataFn w) (UART2 w)).
Proof. reflexivity. Qed.

Lemma reg_Write_run addr v (w : World D) :
  reg_Write addr v w =
  Done tt (mkWorld (store32 addr v (bus w)) (trace w ++ [Store32 addr v])
                   (Family w) (Native w) (getRandomDataFn w) (UART2 w)).
Proof. reflexivity. Qed.

Lemma reg_Wait_S fuel addr pos mask val (w : World D) :
  reg_Wait (S fuel) addr pos mask val w =
  let v := fst (load32 addr (bus w)) in
  let w1 := mkWorld (snd (load32 addr (bus w))) (trace w ++ [Load32 addr v])
                    (Family w) (Native w) (getRandomDataFn w) (UART2 w) in
  if Z.land (Z.shiftr v pos) mask =? val then Done tt w1
  else reg_Wait fuel addr pos mask val w1.
Proof.
  cbv zeta. cbn [reg_Wait]. unfold bind at 1. rewrite reg_Get_run.
  now destruct (_ =? val).
Qed.

(** Enough polls let the wait return: if the field settles at the [n]-th
    poll, any budget of at least [n] polls sees it return. *)
Lemma reg_Wait_returns addr pos mask val n :
  forall (w : World D) d' fuel,
    settles addr pos mask val n (bus w) d' -> (n <= fuel)%nat ->
    exists w', reg_Wait fuel addr pos mask val w = Done tt w' /\
               bus w' = d' /\ UART2 w' = UART2 w.
Proof.
  induction n as [|n IH]; intros w d' fuel Hs Hle.
  - inversion Hs.
  - destruct fuel as [|fuel]; [lia|]. rewrite reg_Wait_S. cbv zeta.
    inversion Hs; subst.
    + rewrite Z.eqb_refl. eexists. repeat split.
    + match goal with Hv : _ <> val |- _ => apply Z.eqb_neq in Hv; rewrite Hv end.
      match goal with Hr : settles _ _ _ _ n _ _ |- _ => rename Hr into Hrest end.
      destruct (IH (mkWorld (snd (load32 addr (bus w)))
                            (trace w ++ [Load32 addr (fst (load32 addr (bus w)))])
                            (Family w) (Native w) (getRandomDataFn w) (UART2 w))
                   d' fuel Hrest ltac:(lia)) as [w' [E [Hb Hu]]].
      exists w'. repeat split; assumption.
Qed.

(** A wait that returned saw the field settle, within its budget. *)
Lemma reg_Wait_returned addr pos mask val fuel :
  forall (w w' : World D),
    reg_Wait fuel addr pos mask val w = Done tt w' ->
    exists n, (n <= fuel)%nat /\ settles addr pos mask val n (bus w) (bus w').
Proof.
  induction fuel as [|fuel IH]; intros w w' E; [discriminate|].
  rewrite reg_Wait_S in E. cbv zeta in E.
  destruct (Z.eqb_spec
              (Z.land (Z.shiftr (fst (load32 addr (bus w))) pos) mask) val)
    as [Hv | Hv].
  - injection E as <-. exists 1%nat. split; [lia|]. now apply settles_now.
  - apply IH in E. destruct E as [n [Hle Hs]]. exists (S n). split; [lia|].
    now apply settles_later.
Qed.

(** What a wait adds to the trace: polls of the one register; every poll
    but the last of a wait that returned missed the value, and a pending
    wait used its whole budget on misses.  The wait itself never panics. *)
Lemma reg_Wait_trace addr pos mask val fuel :
  forall (w : World D),
  exists vs,
    trace (world_of (reg_Wait fuel addr pos mask val w)) =
      trace w ++ map (Load32 addr) vs /\
    UART2 (world_of (reg_Wait fuel addr pos mask val w)) = UART2 w /\
    match reg_Wait fuel addr pos mask val w with
    | Done _ _ =>
        exists vs' v, vs = vs' ++ [v] /\
          Forall (fun x => Z.land (Z.shiftr x pos) mask <> val) vs' /\
          Z.land (Z.shiftr v pos) mask = val
    | Spin _ =>
        length vs = fuel /\
        Forall (fun x => Z.land (Z.shiftr x pos) mask <> val) vs
    | Fault _ => False
    end.
Proof.
  induction fuel as [|fuel IH]; intros w.
  - exists []. cbn. rewrite app_nil_r. repeat split. constructor.
  - rewrite reg_Wait_S. cbv zeta.
    set (v := fst (load32 addr (bus w))).
    set (w1 := mkWorld _ _ _ _ _ _).
    destruct (Z.eqb_spec (Z.land (Z.shiftr v pos) mask) val) as [Hv | Hv].
    + exists [v]. cbn. repeat split. exists [], v. repeat split; [constructor | exact Hv].
    + destruct (IH w1) as [vs [Ht [Hu Hm]]]. exists (v :: vs).
      split; [|split].
      * rewrite Ht. subst w1. cbn. now rewrite <- app_assoc.
      * rewrite Hu. reflexivity.
      * destruct (reg_Wait fuel addr pos mask val w1) as [[] w2 | w2 | w2].
        -- destruct Hm as [vs' [x [-> [Hf Hx]]]].
           exists (v :: vs'), x. repeat split; [constructor; assumption | exact Hx].
        -- exact Hm.
        -- destruct Hm as [Hl Hf]. split; [cbn; now rewrite Hl | constructor; assumption].
Qed.

Lemma no_fault_reg_Wait fuel addr pos mask val :
  no_fault (reg_Wait (D := D) fuel addr pos mask val).
Proof.
  intros w w' E. destruct (reg_Wait_trace addr pos mask val fuel w) as [vs [_ [_ Hm]]].
  now rewrite E in Hm.
Qed.

End Waits.

(** ** [uartclk] and [Init] *)

Section InitFacts.
Context {D : Type} `{Bus D} `{ClockTree}.

Lemma podf_divisor_range v :
  1 <= Z.land (Z.shiftr v CSCDR1_CLK_PODF) 63 + 1 <= 64.
Proof.
  pose proof (field_mask_range (Z.shiftr v CSCDR1_CLK_PODF) 6 ltac:(lia)) as Hr.
  change (Z.ones 6) with 63 in Hr. change (2 ^ 6) with 64 in Hr. lia.
Qed.

Lemma uartclk_run (w : World D) :
  let v1 := fst (load32 CCM_CSCDR1 (bus w)) in
  let d1 := snd (load32 CCM_CSCDR1 (bus w)) in
  let v2 := fst (load32 CCM_CSCDR1 d1) in
  uartclk w =
  Done (uartclk_of v1 v2)
       (mkWorld (snd (load32 CCM_CSCDR1 d1))
                (trace w ++ [Load32 CCM_CSCDR1 v1; Load32 CCM_CSCDR1 v2])
                (Family w) (Native w) (getRandomDataFn w) (UART2 w)).
Proof.
  cbv zeta. unfold uartclk, bind. rewrite reg_Get_run. cbn [bus].
  rewrite reg_Get_run. cbn [bus trace Family Native getRandomDataFn UART2].
  unfold udiv.
  pose proof (podf_divisor_range
                (fst (load32 CCM_CSCDR1 (snd (load32 CCM_CSCDR1 (bus w)))))) as Hp.
  destruct (Z.eqb_spec
              (Z.land (Z.shiftr (fst (load32 CCM_CSCDR1
                                         (snd (load32 CCM_CSCDR1 (bus w)))))
                                CSCDR1_CLK_PODF) 63 + 1) 0) as [E | _]; [lia|].
  unfold uartclk_of. now rewrite <- app_assoc.
Qed.

Lemma no_fault_uartclk : no_fault uartclk.
Proof. intros w w' E. rewrite uartclk_run in E. discriminate. Qed.

Lemma Init_split fuel baudrate (w : World D) :
  Init fuel baudrate w =
  if mu (UART2 w) then Spin w
  else (reg_Wait fuel (ucr2 (UART2 w)) UCR2_SRST 1 1 ;;
        Init_tail (UART2 (Init_armed w)) baudrate) (Init_armed w).
Proof.
  unfold Init, Lock, bind at 1. destruct (mu (UART2 w)) eqn:Hmu; [reflexivity|].
  unfold put_hw. unfold bind at 1. unfold get_hw at 1.
  cbn [UART2 ucr1 ucr2 bus trace Family Native getRandomDataFn].
  unfold bind at 1. rewrite reg_Write_run.
  unfold bind at 1. rewrite reg_Write_run.
  cbn [UART2 ucr1 ucr2 bus trace Family Native getRandomDataFn].
  rewrite <- app_assoc. unfold Init_tail, Init_armed. cbv zeta.
  cbn [UART2 app]. reflexivity.
Qed.

Lemma reg_SetN_run addr pos mask val (w : World D) :
  let r := fst (load32 addr (bus w)) in
  let v := wrap32 (Z.lor (Z.land r (Z.lnot (Z.shiftl mask pos)))
                         (Z.shiftl val pos)) in
  reg_SetN addr pos mask val w =
  Done tt (mkWorld (store32 addr v (snd (load32 addr (bus w))))
                   (trace w ++ [Load32 addr r; Store32 addr v])
                   (Family w) (Native w) (getRandomDataFn w) (UART2 w)).
Proof.
  cbv zeta. unfold reg_SetN, bind, reg_Read, reg_Write, emit, ret, set_bus.
  cbn. now rewrite <- app_assoc.
Qed.

Lemma reg_Set_run addr pos (w : World D) :
  let r := fst (load32 addr (bus w)) in
  let v := wrap32 (Z.lor r (Z.shiftl 1 pos)) in
  reg_Set addr pos w =
  Done tt (mkWorld (store32 addr v (snd (load32 addr (bus w))))
                   (trace w ++ [Load32 addr r; Store32 addr v])
                   (Family w) (Native w) (getRandomDataFn w) (UART2 w)).
Proof.
  cbv zeta. unfold reg_Set, bind, reg_Read, reg_Write, emit, ret, set_bus.
  cbn. now rewrite <- app_assoc.
Qed.

Ltac run_with lem :=
  unfold bind at 1; rewrite lem; cbv beta iota zeta;
  cbn [bus trace Family Native getRandomDataFn UART2].

(** The register programme of [Init] after the reset wait, when the
    divisor of the baud-rate division is not zero. *)
Lemma Init_tail_run hw b (w : World D) :
  wrap32 (2 * b) <> 0 ->
  exists wk f wk' x u w',
    Init_tail hw b w = Done tt w' /\
    trace wk = trace w ++
      [Store32 (ucr3 hw) ucr3_value;
       Load32 (ucr4 hw) x;
       Store32 (ucr4 hw)
         (wrap32 (Z.lor (Z.land x (Z.lnot (Z.shiftl 63 UCR4_CTSTL)))
                        (Z.shiftl 32 UCR4_CTSTL)));
       Store32 (uesc hw) ESC;
       Store32 (utim hw) 0;
       Store32 (ufcr hw) ufcr_value] /\
    bus wk = Init_programmed hw (bus w) /\
    uartclk wk = Done f wk' /\
    trace w' = trace wk' ++
      [Store32 (ubir hw) 15;
       Store32 (ubmr hw) (f / 6 / wrap32 (2 * b));
       Store32 (ucr2 hw) ucr2_value;
       Load32 (ucr1 hw) u;
       Store32 (ucr1 hw) (wrap32 (Z.lor u (Z.shiftl 1 UCR1_UARTEN)))] /\
    bus w' =
      store32 (ucr1 hw) (wrap32 (Z.lor u (Z.shiftl 1 UCR1_UARTEN)))
        (snd (load32 (ucr1 hw)
           (store32 (ucr2 hw) ucr2_value
              (store32 (ubmr hw) (f / 6 / wrap32 (2 * b))
                 (store32 (ubir hw) 15 (bus wk')))))) /\
    mu (UART2 w') = false.
Proof.
  intros Hb. unfold Init_tail.
  run_with reg_Write_run. run_with reg_SetN_run. run_with reg_Write_run.
  run_with reg_Write_run. run_with reg_Write_run.
  match goal with
  | |- context [bind uartclk _ ?W] => remember W as wk eqn:Hwk
  end.
  unfold bind at 1.
  destruct (uartclk wk) as [f wk' | wk' | wk'] eqn:Hclk;
    [ | rewrite uartclk_run in Hclk; discriminate
      | rewrite uartclk_run in Hclk; discriminate ].
  unfold bind at 1, udiv at 1. change (6 =? 0) with false. cbv iota.
  unfold bind at 1, udiv at 1.
  destruct (Z.eqb_spec (wrap32 (2 * b)) 0) as [E | _]; [contradiction|].
  run_with reg_Write_run. run_with reg_Write_run. run_with reg_Write_run.
  run_with reg_Set_run. unfold Unlock, put_hw.
  cbn [bus trace Family Native getRandomDataFn UART2].
  exists wk, f, wk'. do 2 eexists. eexists.
  split; [reflexivity|]. split.
  { rewrite Hwk. cbn [trace]. rewrite <- !app_assoc. reflexivity. }
  split; [rewrite Hwk; reflexivity|].
  split; [exact Hclk|]. split.
  { cbn [trace]. rewrite <- !app_assoc. reflexivity. }
  split; reflexivity.
Qed.

Lemma Init_tail_faults hw b (w : World D) :
  wrap32 (2 * b) = 0 -> exists w', Init_tail hw b w = Fault w'.
Proof.
  intros Hb. unfold Init_tail.
  run_with reg_Write_run. run_with reg_SetN_run. run_with reg_Write_run.
  run_with reg_Write_run. run_with reg_Write_run. run_with uartclk_run.
  unfold bind at 1, udiv at 1. change (6 =? 0) with false. cbv iota.
  unfold bind at 1, udiv at 1. rewrite Hb. cbn. eexists. reflexivity.
Qed.

End InitFacts.

Section InitRuns.
Context {D : Type} `{Bus D} `{ClockTree}.

Lemma no_fault_Init fuel b :
  wrap32 (2 * b) <> 0 -> no_fault (Init (D := D) fuel b).
Proof.
  intros Hb w w'. rewrite Init_split.
  destruct (mu (UART2 w)); [discriminate|].
  apply no_fault_bind; [apply no_fault_reg_Wait|].
  intros [] w1 w2 E.
  destruct (Init_tail_run (UART2 (Init_armed w)) b w1 Hb)
    as (wk & f & wk' & x & u & w3 & E3 & _).
  rewrite E3 in E. discriminate.
Qed.

Lemma init_unfold fuel base b (w : World D) :
  init fuel base b w =
  Init fuel b (mkWorld (bus w) (trace w) (Family w) (Native w)
                       (getRandomDataFn w) (Uart_at (mu (UART2 w)) base)).
Proof. reflexivity. Qed.

(** [Init] returns as soon as the reset wait does. *)
Lemma Init_returns fuel b (w : World D) n d' :
  wrap32 (2 * b) <> 0 -> mu (UART2 w) = false ->
  settles (ucr2 (UART2 w)) UCR2_SRST 1 1 n (bus (Init_armed w)) d' ->
  (n <= fuel)%nat ->
  exists w', Init fuel b w = Done tt w'.
Proof.
  intros Hb Hmu Hs Hle. rewrite Init_split, Hmu.
  destruct (reg_Wait_returns _ _ _ _ n (Init_armed w) d' fuel Hs Hle)
    as (w1 & E1 & _).
  unfold bind at 1. rewrite E1.
  destruct (Init_tail_run (UART2 (Init_armed w)) b w1 Hb)
    as (wk & f & wk' & x & u & w3 & E3 & _).
  exists w3. exact E3.
Qed.

(** With a divisor that wraps to zero, [Init] panics as soon as the reset
    wait returns, the mutex still held. *)
Lemma Init_faults fuel b (w : World D) n d' :
  wrap32 (2 * b) = 0 -> mu (UART2 w) = false ->
  settles (ucr2 (UART2 w)) UCR2_SRST 1 1 n (bus (Init_armed w)) d' ->
  (n <= fuel)%nat ->
  exists w', Init fuel b w = Fault w'.
Proof.
  intros Hb Hmu Hs Hle. rewrite Init_split, Hmu.
  destruct (reg_Wait_returns _ _ _ _ n (Init_armed w) d' fuel Hs Hle)
    as (w1 & E1 & _).
  unfold bind at 1. rewrite E1.
  apply Init_tail_faults. exact Hb.
Qed.

(** The whole run of an [Init] that returned. *)
Lemma Init_returned fuel b (w w' : World D) :
  Init fuel b w = Done tt w' ->
  let hw := UART2 w in
  wrap32 (2 * b) <> 0 /\ mu hw = false /\
  exists n d1 polls wk f wk' x u,
    (n <= fuel)%nat /\
    settles (ucr2 hw) UCR2_SRST 1 1 n (bus (Init_armed w)) d1 /\
    bus wk = Init_programmed hw d1 /\
    trace wk = trace w ++
      [Store32 (ucr1 hw) 0; Store32 (ucr2 hw) 0] ++
      map (Load32 (ucr2 hw)) polls ++
      [Store32 (ucr3 hw) ucr3_value;
       Load32 (ucr4 hw) x;
       Store32 (ucr4 hw)
         (wrap32 (Z.lor (Z.land x (Z.lnot (Z.shiftl 63 UCR4_CTSTL)))
                        (Z.shiftl 32 UCR4_CTSTL)));
       Store32 (uesc hw) ESC;
       Store32 (utim hw) 0;
       Store32 (ufcr hw) ufcr_value] /\
    uartclk wk = Done f wk' /\
    trace w' = trace wk' ++
      [Store32 (ubir hw) 15;
       Store32 (ubmr hw) (f / 6 / wrap32 (2 * b));
       Store32 (ucr2 hw) ucr2_value;
       Load32 (ucr1 hw) u;
       Store32 (ucr1 hw) (wrap32 (Z.lor u (Z.shiftl 1 UCR1_UARTEN)))] /\
    bus w' =
      store32 (ucr1 hw) (wrap32 (Z.lor u (Z.shiftl 1 UCR1_UARTEN)))
        (snd (load32 (ucr1 hw)
           (store32 (ucr2 hw) ucr2_value
              (store32 (ubmr hw) (f / 6 / wrap32 (2 * b))
                 (store32 (ubir hw) 15 (bus wk')))))).
Proof.
  intros E hw. rewrite Init_split in E.
  destruct (mu (UART2 w)) eqn:Hmu; [discriminate|].
  unfold bind at 1 in E.
  pose proof (reg_Wait_trace (ucr2 (UART2 w)) UCR2_SRST 1 1 fuel (Init_armed w))
    as (polls & Ht & Hu & _).
  pose proof (reg_Wait_returned (ucr2 (UART2 w)) UCR2_SRST 1 1 fuel
                                (Init_armed w)) as Hret.
  destruct (reg_Wait fuel (ucr2 (UART2 w)) UCR2_SRST 1 1 (Init_armed w))
    as [[] w1 | w1 | w1]; [|discriminate..].
  cbn [world_of] in Ht, Hu.
  destruct (Hret w1 eq_refl) as (n & Hle & Hs).
  destruct (Z.eq_dec (wrap32 (2 * b)) 0) as [Hb | Hb].
  { destruct (Init_tail_faults (UART2 (Init_armed w)) b w1 Hb) as [w2 E2].
    rewrite E2 in E. discriminate. }
  destruct (Init_tail_run (UART2 (Init_armed w)) b w1 Hb)
    as (wk & f & wk' & x & u & w3 & E3 & Hk & Hbk & Hclk & Hw3 & Hb3 & _).
  rewrite E3 in E. injection E as <-.
  split; [exact Hb|]. split; [exact Hmu|].
  exists n, (bus w1), polls, wk, f, wk', x, u.
  split; [exact Hle|]. split; [exact Hs|]. split; [exact Hbk|].
  split; [|split; [exact Hclk | split; [exact Hw3 | exact Hb3]]].
  rewrite Hk, Ht. cbn [Init_armed trace]. rewrite <- !app_assoc. reflexivity.
Qed.

End InitRuns.

(** * The claims *)

Section BaudRate.
Context {D : Type} `{Bus D} `{ClockTree}.

(** C1.  For every baud rate [0 < B < 2^31], a range that holds every rate
    the hardware supports, [Init B] returns as soon as the reset wait does,
    and a run that returned has written 15 to the denominator register UBIR
    and then [(clk / 6) / (2 * B)] to the numerator register UBMR, where
    [clk] is what [uartclk] returned when [Init] called it, on the device as
    the reset wait and the programming of UCR3, UCR4, UESC, UTIM and UFCR
    had left it; the two stores are adjacent, UBIR first, and what follows
    them is the programming of the control registers UCR2 and UCR1. *)
Theorem Init_commits_baud_rate fuel B (w : World D) :
  0 < B < 2 ^ 31 ->
  let hw := UART2 w in
  (forall n d',
      mu hw = false ->
      settles (ucr2 hw) UCR2_SRST 1 1 n (bus (Init_armed w)) d' ->
      (n <= fuel)%nat ->
      exists w', Init fuel B w = Done tt w') /\
  (forall w',
      Init fuel B w = Done tt w' ->
      exists n d1 pre wk clk wk' u,
        (n <= fuel)%nat /\
        settles (ucr2 hw) UCR2_SRST 1 1 n (bus (Init_armed w)) d1 /\
        bus wk = Init_programmed hw d1 /\
        trace wk = trace w ++ pre /\
        uartclk wk = Done clk wk' /\
        trace w' = trace wk' ++
          [Store32 (ubir hw) 15;
           Store32 (ubmr hw) (clk / 6 / (2 * B));
           Store32 (ucr2 hw) ucr2_value;
           Load32 (ucr1 hw) u;
           Store32 (ucr1 hw) (wrap32 (Z.lor u (Z.shiftl 1 UCR1_UARTEN)))] /\
        bus w' =
          store32 (ucr1 hw) (wrap32 (Z.lor u (Z.shiftl 1 UCR1_UARTEN)))
            (snd (load32 (ucr1 hw)
               (store32 (ucr2 hw) ucr2_value
                  (store32 (ubmr hw) (clk / 6 / (2 * B))
                     (store32 (ubir hw) 15 (bus wk'))))))).
Proof.
  intros HB hw.
  assert (Hw : wrap32 (2 * B) = 2 * B) by (apply wrap32_small; lia).
  split.
  - intros n d' Hmu Hs Hle.
    apply (Init_returns fuel B w n d'); try assumption. rewrite Hw. lia.
  - intros w' E.
    destruct (Init_returned fuel B w w' E)
      as (_ & _ & n & d1 & polls & wk & f & wk' & x & u
          & Hle & Hs & Hbk & Hk & Hclk & Ht & Hb).
    rewrite Hw in Ht, Hb.
    eexists n, d1, _, wk, f, wk', u.
    split; [exact Hle|]. split; [exact Hs|]. split; [exact Hbk|].
    split; [exact Hk|]. split; [exact Hclk|]. split; [exact Ht | exact Hb].
Qed.

(** C10, as amended.  [Init] divides by [2 * baudrate] computed in
    [uint32], with no guard.  For [0 < baudrate < 2^32] other than [2^31]
    neither [Init] nor [init] divides by zero; [uartclk] never does: its
    divisor [podf + 1] lies in [1, 64]. *)
Theorem Init_division_defined fuel B (w : World D) :
  0 < B < 2 ^ 32 -> B <> 2 ^ 31 ->
  (forall w', Init fuel B w <> Fault w') /\
  (forall base w', init fuel base B w <> Fault w') /\
  (forall w', uartclk w <> Fault w') /\
  (forall v, 1 <= Z.land (Z.shiftr v CSCDR1_CLK_PODF) 63 + 1 <= 64).
Proof.
  intros HB Hne.
  assert (Hw : wrap32 (2 * B) <> 0).
  { intros E. apply double_wraps_to_zero in E; lia. }
  split; [|split; [|split]].
  - apply no_fault_Init. exact Hw.
  - intros base w'. rewrite init_unfold. apply no_fault_Init. exact Hw.
  - apply no_fault_uartclk.
  - apply podf_divisor_range.
Qed.

End BaudRate.

Lemma console_reset_settles :
  settles (ucr2 (UART2 (console sim0))) UCR2_SRST 1 1 3
          (bus (Init_armed (console sim0)))
          (snd (load32 (ucr2 (UART2 (console sim0)))
                 (snd (load32 (ucr2 (UART2 (console sim0)))
                    (snd (load32 (ucr2 (UART2 (console sim0)))
                       (bus (Init_armed (console sim0))))))))).
Proof.
  apply settles_later; [vm_compute; discriminate|].
  apply settles_later; [vm_compute; discriminate|].
  apply settles_now. vm_compute. reflexivity.
Qed.

Lemma Init_commits_baud_rate_witness :
  0 < 115200 < 2 ^ 31 /\
  exists w', Init 3 115200 (console sim0) = Done tt w'.
Proof.
  split; [lia|].
  exact (proj1 (Init_commits_baud_rate 3 115200 (console sim0) ltac:(lia))
               3%nat _ eq_refl console_reset_settles (le_n 3)).
Defined.

(** The run of [Init] on the simulated console at 115200 baud, with the
    sample clock tree: 80 MHz / 6 / 230400 = 57. *)
Example Init_console_trace :
  let hw := Uart_at false UART2_BASE in
  trace (world_of (Init 3 115200 (console sim0))) =
  [Store32 (ucr1 hw) 0; Store32 (ucr2 hw) 0;
   Load32 (ucr2 hw) 0; Load32 (ucr2 hw) 0; Load32 (ucr2 hw) 1;
   Store32 (ucr3 hw) 0x784;
   Load32 (ucr4 hw) 0; Store32 (ucr4 hw) 0x8000;
   Store32 (uesc hw) 0x1b; Store32 (utim hw) 0; Store32 (ufcr hw) 0xa01;
   Load32 CCM_CSCDR1 0; Load32 CCM_CSCDR1 0;
   Store32 (ubir hw) 15; Store32 (ubmr hw) 57;
   Store32 (ucr2 hw) 0x4027;
   Load32 (ucr1 hw) 0; Store32 (ucr1 hw) 1].
Proof. vm_compute. reflexivity. Qed.

Lemma Init_division_defined_witness :
  0 < 115200 < 2 ^ 32 /\
  match Init 3 115200 (console sim0) with
  | Fault _ => False
  | _ => True
  end.
Proof.
  split; [lia|].
  destruct (Init 3 115200 (console sim0)) as [a w1 | w1 | w1] eqn:E;
    [exact I | | exact I].
  exact (proj1 (Init_division_defined 3 115200 (console sim0)
                                      ltac:(lia) ltac:(lia)) w1 E).
Defined.

(** C10, as stated, fails: [2^31] is a positive [uint32] whose double wraps
    to zero, and both [Init] and [init] panic on it. *)
Lemma Init_divides_by_zero :
  0 < 2147483648 < 2 ^ 32 /\
  (exists w', Init 3 2147483648 (console sim0) = Fault w') /\
  (exists w', init 3 UART2_BASE 2147483648 (boot sim0) = Fault w').
Proof.
  split; [lia|]. split.
  - exists (world_of (Init 3 2147483648 (console sim0))).
    vm_compute. reflexivity.
  - exists (world_of (init 3 UART2_BASE 2147483648 (boot sim0))).
    vm_compute. reflexivity.
Qed.

(** ** [Write] *)

Section WriteFacts.
Context {D : Type} `{Bus D}.

Lemma txEmpty_run (w : World D) :
  let v := fst (load32 (uts (UART2 w)) (bus w)) in
  txEmpty w =
  Done (negb (Z.testbit v UTS_TXEMPTY))
       (mkWorld (snd (load32 (uts (UART2 w)) (bus w)))
                (trace w ++ [Load32 (uts (UART2 w)) v])
                (Family w) (Native w) (getRandomDataFn w) (UART2 w)).
Proof.
  cbv zeta. unfold txEmpty, bind, get_hw. rewrite reg_Get_run.
  unfold ret. now rewrite field_bit_eq0.
Qed.

(** The loop of [Write] is a wait for the TXEMPTY bit to read 1. *)
Lemma Write_wait_is_Wait fuel :
  forall w : World D,
    Write_wait fuel w = reg_Wait fuel (uts (UART2 w)) UTS_TXEMPTY 1 1 w.
Proof.
  induction fuel as [|fuel IH]; intros w; [reflexivity|].
  rewrite reg_Wait_S. cbv zeta. cbn [Write_wait]. unfold bind at 1.
  rewrite txEmpty_run. cbv zeta. rewrite field_bit_eq1 by discriminate.
  destruct (Z.testbit _ UTS_TXEMPTY); cbn [negb]; [reflexivity|].
  now rewrite IH.
Qed.

Lemma Write_unfold fuel c (w : World D) :
  Write fuel c w =
  reg_Wait fuel (uts (UART2 w)) UTS_TXEMPTY 1 1
    (mkWorld (store32 (utxd (UART2 w)) c (bus w))
             (trace w ++ [Store32 (utxd (UART2 w)) c])
             (Family w) (Native w) (getRandomDataFn w) (UART2 w)).
Proof.
  unfold Write, bind, get_hw. rewrite reg_Write_run.
  now rewrite Write_wait_is_Wait.
Qed.

Lemma missed_bit pos (l : list Z) :
  0 <= pos ->
  Forall (fun x => Z.land (Z.shiftr x pos) 1 <> 1) l ->
  Forall (fun x => Z.testbit x pos = false) l.
Proof.
  intros Hp Hl. induction Hl as [|x l Hx _ IH]; constructor; [|exact IH].
  rewrite field_bit in Hx by exact Hp. now destruct (Z.testbit x pos).
Qed.

(** C7.  For every [c], [Write c] first stores [c] in the transmit-data
    register and then only polls the test register.  A call that returned
    ended on a poll that read TXEMPTY = 1, after polls that all read 0; a
    call still pending after [fuel] polls has read 0 on each of them; no
    call panics.  And once the device reports TXEMPTY = 1 (at its [n]-th
    poll), every run allowed [n] polls or more returns. *)
Theorem Write_blocks_until_empty fuel c (w : World D) :
  let hw := UART2 w in
  (exists polls,
      trace (world_of (Write fuel c w)) =
        trace w ++ Store32 (utxd hw) c :: map (Load32 (uts hw)) polls /\
      match Write fuel c w with
      | Done _ _ =>
          exists vs v, polls = vs ++ [v] /\
            Forall (fun x => Z.testbit x UTS_TXEMPTY = false) vs /\
            Z.testbit v UTS_TXEMPTY = true
      | Spin _ =>
          length polls = fuel /\
          Forall (fun x => Z.testbit x UTS_TXEMPTY = false) polls
      | Fault _ => False
      end) /\
  (forall n d',
      settles (uts hw) UTS_TXEMPTY 1 1 n (store32 (utxd hw) c (bus w)) d' ->
      (n <= fuel)%nat ->
      exists w', Write fuel c w = Done tt w' /\ bus w' = d').
Proof.
  intros hw. rewrite Write_unfold. fold hw. split.
  - match goal with
    | |- context [reg_Wait fuel ?a ?p ?m ?v ?W] =>
        destruct (reg_Wait_trace a p m v fuel W) as (polls & Ht & _ & Hm)
    end.
    exists polls. split.
    + rewrite Ht. cbn [trace]. now rewrite <- app_assoc.
    + destruct (reg_Wait fuel _ _ _ _ _) as [[] w1 | w1 | w1].
      * destruct Hm as (vs & v & -> & Hmiss & Hv).
        exists vs, v. split; [reflexivity|]. split.
        -- apply missed_bit; [discriminate | exact Hmiss].
        -- rewrite field_bit in Hv by discriminate.
           now destruct (Z.testbit v UTS_TXEMPTY).
      * exact Hm.
      * destruct Hm as [Hl Hmiss]. split; [exact Hl|].
        apply missed_bit; [discriminate | exact Hmiss].
  - intros n d' Hs Hle.
    match goal with
    | |- context [reg_Wait fuel ?a ?p ?m ?v ?W] =>
        destruct (reg_Wait_returns a p m v n W d' fuel Hs Hle) as (w' & E & Hb & _)
    end.
    exists w'. split; assumption.
Qed.

End WriteFacts.

Lemma console_tx_settles :
  settles (uts (UART2 (console sim0))) UTS_TXEMPTY 1 1 4
          (store32 (utxd (UART2 (console sim0))) 65 (bus (console sim0)))
          (poll_uts (poll_uts (poll_uts (poll_uts
             (store32 (utxd (UART2 (console sim0))) 65
                      (bus (console sim0))))))).
Proof.
  do 3 (apply settles_later; [vm_compute; discriminate|]).
  apply settles_now. vm_compute. reflexivity.
Qed.

Lemma Write_blocks_until_empty_witness :
  exists w', Write 4 65 (console sim0) = Done tt w' /\ bus w' = sim0.
Proof.
  destruct (proj2 (Write_blocks_until_empty 4 65 (console sim0))
                  4%nat _ console_tx_settles (le_n 4)) as (w' & E & Hb).
  exists w'. split; [exact E|]. rewrite Hb. vm_compute. reflexivity.
Defined.

(** X19.  On a register file whose TXEMPTY bit reads 0 and stays so,
    [Write] never returns, whatever the number of polls allowed. *)
Lemma Write_never_returns_on_stuck_mock fuel c (w : World (gmap Z Z)) :
  utxd (UART2 w) <> uts (UART2 w) ->
  Z.testbit (wrap32 (default 0 (bus w !! uts (UART2 w)))) UTS_TXEMPTY = false ->
  exists w', Write fuel c w = Spin w'.
Proof.
  intros Hne Hbit. rewrite Write_unfold.
  set (w0 := mkWorld _ _ _ _ _ _).
  assert (Hinv : bus w0 !! uts (UART2 w) = bus w !! uts (UART2 w)).
  { subst w0. cbn. unfold mock_store32. now rewrite lookup_insert_ne. }
  assert (Hu : UART2 w0 = UART2 w) by reflexivity.
  clearbody w0. revert w0 Hinv Hu.
  induction fuel as [|fuel IH]; intros w0 Hinv Hu; [now exists w0|].
  rewrite reg_Wait_S. cbv zeta. rewrite field_bit_eq1 by discriminate.
  cbn [load32 mock_bus mock_load32 fst snd]. rewrite Hinv, Hbit.
  apply IH; [exact Hinv | exact Hu].
Qed.

(** ** [Read] *)

Section ReadFacts.
Context {D : Type} `{Bus D}.

Lemma error_field_bits e :
  Z.land (Z.shiftr e URXD_PRERR) 31 = 0 <->
  forall i, URXD_PRERR <= i <= URXD_ERR -> Z.testbit e i = false.
Proof.
  change 31 with (Z.ones 5).
  rewrite (field_zero_iff e URXD_PRERR 5) by (unfold URXD_PRERR; lia).
  unfold URXD_PRERR, URXD_ERR. split; intros Hall i Hi; apply Hall; lia.
Qed.

Lemma Read_not_ready (w : World D) :
  Z.testbit (Read_status w) USR2_RDR = false ->
  Read w =
  Done (0, false)
       (mkWorld (snd (load32 (usr2 (UART2 w)) (bus w)))
                (trace w ++ [Load32 (usr2 (UART2 w)) (Read_status w)])
                (Family w) (Native w) (getRandomDataFn w) (UART2 w)).
Proof.
  intros Hs. unfold Read, rxReady, get_hw. unfold bind at 1 2 3.
  rewrite reg_Get_run. unfold ret at 1.
  rewrite field_bit_eq1 by discriminate. fold (Read_status w). now rewrite Hs.
Qed.

Lemma Read_error (w : World D) :
  Z.testbit (Read_status w) USR2_RDR = true ->
  Z.land (Z.shiftr (Read_examined w) URXD_PRERR) 31 <> 0 ->
  Read w =
  Done (0, false)
       (mkWorld (snd (load32 (urxd (UART2 w))
                        (snd (load32 (usr2 (UART2 w)) (bus w)))))
                (trace w ++ [Load32 (usr2 (UART2 w)) (Read_status w);
                             Load32 (urxd (UART2 w)) (Read_examined w)])
                (Family w) (Native w) (getRandomDataFn w) (UART2 w)).
Proof.
  intros Hs He. unfold Read, rxReady, get_hw. unfold bind at 1 2 3.
  rewrite reg_Get_run. unfold ret at 1.
  rewrite field_bit_eq1 by discriminate. fold (Read_status w). rewrite Hs.
  cbn [negb]. unfold rxError, get_hw. unfold bind at 1 2 3.
  cbn [UART2 bus]. rewrite reg_Get_run. unfold ret at 1.
  cbn [UART2 bus trace Family Native getRandomDataFn].
  fold (Read_examined w). apply Z.eqb_neq in He. rewrite He. cbn [negb].
  unfold ret. now rewrite <- app_assoc.
Qed.

Lemma Read_success (w : World D) :
  Z.testbit (Read_status w) USR2_RDR = true ->
  Z.land (Z.shiftr (Read_examined w) URXD_PRERR) 31 = 0 ->
  Read w =
  Done (Read_data w mod 2 ^ 8, true)
       (mkWorld (snd (load32 (urxd (UART2 w))
                  (snd (load32 (urxd (UART2 w))
                     (snd (load32 (usr2 (UART2 w)) (bus w)))))))
                (trace w ++ [Load32 (usr2 (UART2 w)) (Read_status w);
                             Load32 (urxd (UART2 w)) (Read_examined w);
                             Load32 (urxd (UART2 w)) (Read_data w)])
                (Family w) (Native w) (getRandomDataFn w) (UART2 w)).
Proof.
  intros Hs He. unfold Read, rxReady, get_hw. unfold bind at 1 2 3.
  rewrite reg_Get_run. unfold ret at 1.
  rewrite field_bit_eq1 by discriminate. fold (Read_status w). rewrite Hs.
  cbn [negb]. unfold rxError, get_hw. unfold bind at 1 2 3.
  cbn [UART2 bus]. rewrite reg_Get_run. unfold ret at 1.
  cbn [UART2 bus trace Family Native getRandomDataFn].
  fold (Read_examined w). rewrite He. cbn [Z.eqb negb].
  unfold bind at 1 2. cbn [UART2 bus]. rewrite reg_Get_run.
  cbn [UART2 bus trace Family Native getRandomDataFn]. unfold ret.
  fold (Read_data w). unfold URXD_RX_DATA. rewrite Z.shiftr_0_r, land_255.
  rewrite Z.mod_mod by lia. now rewrite <- !app_assoc.
Qed.

(** C4.  Whatever the registers hold, [Read] returns [(0, false)] when the
    receiver-ready bit of the status word is 0; it returns [(0, false)]
    when that bit is 1 and some bit of the five-bit error field (bits 10 to
    14) of the receive-data word is set; otherwise it returns the low eight
    bits of the receive-data register, with [true]. *)
Theorem Read_gates (w : World D) :
  (Z.testbit (Read_status w) USR2_RDR = false ->
   exists w', Read w = Done (0, false) w') /\
  (Z.testbit (Read_status w) USR2_RDR = true ->
   (exists i, URXD_PRERR <= i <= URXD_ERR /\
              Z.testbit (Read_examined w) i = true) ->
   exists w', Read w = Done (0, false) w') /\
  (Z.testbit (Read_status w) USR2_RDR = true ->
   (forall i, URXD_PRERR <= i <= URXD_ERR ->
              Z.testbit (Read_examined w) i = false) ->
   exists w', Read w = Done (Read_data w mod 2 ^ 8, true) w' /\
              forall i, 0 <= i ->
                Z.testbit (Read_data w mod 2 ^ 8) i =
                (i <? 8) && Z.testbit (Read_data w) i).
Proof.
  split; [|split].
  - intros Hs. rewrite Read_not_ready by exact Hs. eauto.
  - intros Hs (i & Hi & Hbit). rewrite Read_error; [eauto | exact Hs |].
    intros Hz. rewrite error_field_bits in Hz.
    rewrite (Hz i Hi) in Hbit. discriminate.
  - intros Hs Hclean. rewrite Read_success;
      [| exact Hs | now apply error_field_bits].
    eexists. split; [reflexivity|]. intros i Hi.
    rewrite <- land_255.
    pose proof (field_byte_bits (Read_data w) 0 i ltac:(lia) Hi) as Hb.
    now rewrite Z.shiftr_0_r, Z.add_0_l in Hb.
Qed.

(** C9.  When the receiver-ready bit is set, the error check of [Read] is
    itself a load of the receive-data register, and on the success path the
    byte returned comes from a second load of that register, issued to the
    device in the state the first load left it in: three loads in all, the
    status register and the receive-data register twice. *)
Theorem Read_loads_data_register_twice (w : World D) :
  Z.testbit (Read_status w) USR2_RDR = true ->
  let hw := UART2 w in
  let d1 := snd (load32 (usr2 hw) (bus w)) in
  let d2 := snd (load32 (urxd hw) d1) in
  ((exists i, URXD_PRERR <= i <= URXD_ERR /\
              Z.testbit (fst (load32 (urxd hw) d1)) i = true) ->
   exists w', Read w = Done (0, false) w' /\
     trace w' = trace w ++ [Load32 (usr2 hw) (Read_status w);
                            Load32 (urxd hw) (fst (load32 (urxd hw) d1))] /\
     bus w' = d2) /\
  ((forall i, URXD_PRERR <= i <= URXD_ERR ->
              Z.testbit (fst (load32 (urxd hw) d1)) i = false) ->
   exists w', Read w = Done (fst (load32 (urxd hw) d2) mod 2 ^ 8, true) w' /\
     trace w' = trace w ++ [Load32 (usr2 hw) (Read_status w);
                            Load32 (urxd hw) (fst (load32 (urxd hw) d1));
                            Load32 (urxd hw) (fst (load32 (urxd hw) d2))] /\
     bus w' = snd (load32 (urxd hw) d2)).
Proof.
  intros Hs hw d1 d2. subst hw d1 d2. split.
  - intros (i & Hi & Hbit). rewrite Read_error; [| exact Hs |].
    + eexists. repeat split.
    + intros Hz. rewrite error_field_bits in Hz.
      unfold Read_examined in Hz. rewrite (Hz i Hi) in Hbit. discriminate.
  - intros Hclean. rewrite Read_success;
      [| exact Hs | now apply error_field_bits].
    eexists. repeat split.
Qed.

End ReadFacts.

(** On a register file the two loads of the receive-data register return
    the same word: the byte examined and the byte returned coincide. *)
Lemma Read_on_mock (w : World (gmap Z Z)) :
  Read_status w = wrap32 (default 0 (bus w !! usr2 (UART2 w))) /\
  Read_examined w = wrap32 (default 0 (bus w !! urxd (UART2 w))) /\
  Read_data w = Read_examined w.
Proof. repeat split. Qed.

Lemma sim_rx2_ready : Z.testbit (Read_status (console sim_rx2)) USR2_RDR = true.
Proof. vm_compute. reflexivity. Qed.

Lemma sim_rx2_clean i :
  URXD_PRERR <= i <= URXD_ERR ->
  Z.testbit (Read_examined (console sim_rx2)) i = false.
Proof.
  unfold URXD_PRERR, URXD_ERR. intros Hi.
  assert (Hc : i = 10 \/ i = 11 \/ i = 12 \/ i = 13 \/ i = 14) by lia.
  destruct Hc as [-> | [-> | [-> | [-> | ->]]]]; vm_compute; reflexivity.
Qed.

Lemma Read_gates_witness :
  exists w', Read (console sim_rx2) = Done (66, true) w'.
Proof.
  destruct (proj2 (proj2 (Read_gates (console sim_rx2)))
                  sim_rx2_ready sim_rx2_clean) as (w' & E & _).
  exists w'. exact E.
Defined.

(** On the simulated FIFO the character examined, 0x41, is consumed by the
    check and the caller receives the next one, 0x42; the FIFO is left
    empty. *)
Lemma Read_loads_data_register_twice_witness :
  exists w', Read (console sim_rx2) = Done (66, true) w' /\
             sim_rxfifo (bus w') = [].
Proof.
  destruct (proj2 (Read_loads_data_register_twice (console sim_rx2)
                                                   sim_rx2_ready)
                  sim_rx2_clean) as (w' & E & _ & Hb).
  exists w'. split; [exact E|]. rewrite Hb. vm_compute. reflexivity.
Defined.

(** ** Bring-up and identification *)

Section SocFacts.
Context {D : Type} `{Bus D} `{ClockTree}.

Lemma SiliconVersion_run (w : World D) :
  let sv := fst (load32 USB_ANALOG_DIGPROG (bus w)) in
  SiliconVersion w =
  Done (sv, Z.land (Z.shiftr sv 16) 0xff, Z.land (Z.shiftr sv 8) 0xff,
        Z.land sv 0xff)
       (mkWorld (snd (load32 USB_ANALOG_DIGPROG (bus w)))
                (trace w ++ [Load32 USB_ANALOG_DIGPROG sv])
                (Family w) (Native w) (getRandomDataFn w) (UART2 w)).
Proof. reflexivity. Qed.

Lemma hwinit_unfold fuel (w : World D) :
  hwinit fuel w =
  (init fuel UART2_BASE UART_DEFAULT_BAUDRATE ;; start_timers) (identified w).
Proof.
  unfold hwinit, call, emit. unfold bind at 1 2 3 4.
  cbn [bus trace Family Native getRandomDataFn UART2].
  rewrite SiliconVersion_run. cbv zeta.
  cbn [bus trace Family Native getRandomDataFn UART2].
  unfold set_Family. unfold bind at 1.
  cbn [bus trace Family Native getRandomDataFn UART2].
  unfold identified. cbv zeta. rewrite <- !app_assoc. cbn [app].
  unfold bind at 1.
  destruct (negb (Z.land (Z.shiftr _ 8) 255 =? 0) || negb (Z.land _ 255 =? 0));
    reflexivity.
Qed.

Lemma start_timers_run (w : World D) :
  start_timers w =
  Done tt (mkWorld (bus w) (trace w ++ [Call (timer_source (Family w) (Native w))])
                   (Family w) (Native w) (getRandomDataFn w) (UART2 w)).
Proof.
  unfold start_timers, timer_source, bind, get_Family, get_Native, call, emit.
  destruct (Family w =? IMX6Q); [reflexivity|].
  destruct ((Family w =? IMX6UL) || (Family w =? IMX6ULL)); [|reflexivity].
  destruct (Native w) eqn:Hn; cbn [negb]; now rewrite <- Hn.
Qed.

Lemma same_globals_start_timers : steps same_globals (start_timers (D := D)).
Proof. intros w. rewrite start_timers_run. repeat split. Qed.

(** Whatever becomes of the rest of [hwinit], [Family] and [Native] stay as
    the identification recorded them. *)
Lemma hwinit_globals fuel (w : World D) :
  same_globals (identified w) (world_of (hwinit fuel w)).
Proof.
  rewrite hwinit_unfold. apply steps_bind.
  - exact same_globals_trans.
  - intros w0. apply quiet_init.
  - intros _. apply same_globals_start_timers.
Qed.

Lemma default_baudrate_divisor : wrap32 (2 * UART_DEFAULT_BAUDRATE) <> 0.
Proof. vm_compute. discriminate. Qed.

Lemma no_fault_hwinit fuel : no_fault (hwinit (D := D) fuel).
Proof.
  intros w w'. rewrite hwinit_unfold. apply no_fault_bind.
  - intros w0 w1. rewrite init_unfold. apply no_fault_Init.
    exact default_baudrate_divisor.
  - intros _ w0 w1. rewrite start_timers_run. discriminate.
Qed.

Lemma field_of_version top fam maj min :
  0 <= top < 256 -> 0 <= fam < 256 -> 0 <= maj < 256 -> 0 <= min < 256 ->
  let sv := top * 2 ^ 24 + fam * 2 ^ 16 + maj * 2 ^ 8 + min in
  Z.land (Z.shiftr sv 16) 0xff = fam /\
  Z.land (Z.shiftr sv 8) 0xff = maj /\
  Z.land sv 0xff = min.
Proof.
  intros Ht Hf Hj Hn sv. subst sv.
  rewrite !land_255, !Z.shiftr_div_pow2 by lia.
  change (2 ^ 24) with 16777216. change (2 ^ 16) with 65536.
  change (2 ^ 8) with 256.
  repeat split; Z.div_mod_to_equations; lia.
Qed.

End SocFacts.

Section SocClaims.
Context {D : Type} `{Bus D} `{ClockTree}.

(** C2.  Whatever word [sv] the chip-version register returns, silicon
    identification extracts the family as bits 23..16, the major revision as
    bits 15..8 and the minor revision as bits 7..0 of it, and [hwinit],
    entered with the [Native] flag at its initial value, records that family
    and leaves the flag false when both revisions are 0 and true otherwise;
    the record stands whether or not the rest of [hwinit] returns. *)
Theorem hwinit_identifies fuel (w : World D) :
  Native w = false ->
  let sv := fst (load32 USB_ANALOG_DIGPROG (bus w)) in
  exists family revMajor revMinor w1,
    SiliconVersion w = Done (sv, family, revMajor, revMinor) w1 /\
    (forall i, 0 <= i ->
       Z.testbit family i = (i <? 8) && Z.testbit sv (16 + i)) /\
    (forall i, 0 <= i ->
       Z.testbit revMajor i = (i <? 8) && Z.testbit sv (8 + i)) /\
    (forall i, 0 <= i ->
       Z.testbit revMinor i = (i <? 8) && Z.testbit sv i) /\
    Family (world_of (hwinit fuel w)) = family /\
    Native (world_of (hwinit fuel w)) =
      negb ((revMajor =? 0) && (revMinor =? 0)).
Proof.
  intros Hn sv. rewrite SiliconVersion_run. fold sv.
  do 4 eexists. split; [reflexivity|].
  destruct (hwinit_globals fuel w) as (Hf & Hv & _).
  split; [|split; [|split; [|split]]].
  - intros i Hi. now apply field_byte_bits.
  - intros i Hi. now apply field_byte_bits.
  - intros i Hi.
    pose proof (field_byte_bits sv 0 i ltac:(lia) Hi) as Hb.
    now rewrite Z.shiftr_0_r, Z.add_0_l in Hb.
  - exact Hf.
  - rewrite Hv. cbn [identified Native]. fold sv. rewrite Hn.
    destruct (Z.land (Z.shiftr sv 8) 255 =? 0), (Z.land sv 255 =? 0);
      reflexivity.
Qed.

(** C3.  When the chip-version register encodes family 0x65, major revision
    1 and minor revision 2 (under any top byte), identification records
    family IMX6ULL and the native flag true, and [Model] then returns
    "i.MX6ULL"; and for every family code other than 0x63, 0x64 and 0x65
    [Model] returns "unknown", it does not fail. *)
Theorem Model_of_identified fuel top (w : World D) :
  0 <= top < 256 ->
  fst (load32 USB_ANALOG_DIGPROG (bus w)) =
    top * 2 ^ 24 + 0x65 * 2 ^ 16 + 1 * 2 ^ 8 + 2 ->
  let w' := world_of (hwinit fuel w) in
  Family w' = IMX6ULL /\ Native w' = true /\
  Model w' = Done "i.MX6ULL"%string w' /\
  (forall wx : World D,
      Family wx <> IMX6Q -> Family wx <> IMX6UL -> Family wx <> IMX6ULL ->
      Model wx = Done "unknown"%string wx).
Proof.
  intros Htop Hsv w'.
  destruct (hwinit_globals fuel w) as (Hf & Hv & _). fold w' in Hf, Hv.
  destruct (field_of_version top 0x65 1 2) as (Efam & Emaj & Emin); try lia.
  assert (HF : Family w' = IMX6ULL).
  { rewrite Hf. cbn [identified Family]. rewrite Hsv. exact Efam. }
  split; [exact HF|]. split; [|split].
  - rewrite Hv. cbn [identified Native]. rewrite Hsv, Emaj. reflexivity.
  - unfold Model, bind, get_Family, ret. rewrite HF. reflexivity.
  - intros wx H1 H2 H3. unfold Model, bind, get_Family, ret.
    apply Z.eqb_neq in H1, H2, H3. now rewrite H1, H2, H3.
Qed.

(** C5.  [initRNG] binds [getRandomDataFn] to the hardware generator, after
    initializing it, exactly when the recorded family is IMX6ULL and the
    native flag is true, and to the deterministic software generator in
    every other case; so a chip-version register that encodes family 0x65
    with both revisions zero ends with the software generator bound. *)
Theorem initRNG_selects (w : World D) :
  (exists w',
      initRNG w = Done tt w' /\
      (getRandomDataFn w' = Some RNGB_getRandomData <->
       Family w = IMX6ULL /\ Native w = true) /\
      (getRandomDataFn w' = Some getLCGData <->
       ~ (Family w = IMX6ULL /\ Native w = true)) /\
      (Family w = IMX6ULL /\ Native w = true ->
       trace w' = trace w ++ [Call RNGB_Init]) /\
      (~ (Family w = IMX6ULL /\ Native w = true) -> trace w' = trace w)) /\
  (forall fuel top,
      Native w = false -> 0 <= top < 256 ->
      fst (load32 USB_ANALOG_DIGPROG (bus w)) = top * 2 ^ 24 + 0x65 * 2 ^ 16 ->
      Family (world_of (hwinit fuel w)) = IMX6ULL /\
      Native (world_of (hwinit fuel w)) = false /\
      exists w', initRNG (world_of (hwinit fuel w)) = Done tt w' /\
                 getRandomDataFn w' = Some getLCGData).
Proof.
  assert (Hsel : forall w0 : World D,
             exists w', initRNG w0 = Done tt w' /\
               getRandomDataFn w' =
                 Some (if (Family w0 =? IMX6ULL) && Native w0
                       then RNGB_getRandomData else getLCGData) /\
               trace w' =
                 trace w0 ++ (if (Family w0 =? IMX6ULL) && Native w0
                              then [Call RNGB_Init] else [])).
  { intros w0. unfold initRNG, bind, get_Family, get_Native.
    destruct ((Family w0 =? IMX6ULL) && Native w0).
    - eexists. repeat split.
    - eexists. split; [reflexivity|]. split; [reflexivity|].
      cbn. now rewrite app_nil_r. }
  split.
  - destruct (Hsel w) as (w' & E & Hr & Ht). exists w'. split; [exact E|].
    rewrite Hr, Ht.
    destruct (Z.eqb_spec (Family w) IMX6ULL) as [Hf | Hf];
      destruct (Native w); cbn [andb]; rewrite ?app_nil_r;
      intuition (try congruence; try discriminate).
  - intros fuel top Hn Htop Hsv.
    destruct (hwinit_globals fuel w) as (Hf & Hv & _).
    destruct (field_of_version top 0x65 0 0) as (Efam & Emaj & Emin); try lia.
    replace (top * 2 ^ 24 + 101 * 2 ^ 16 + 0 * 2 ^ 8 + 0)
      with (top * 2 ^ 24 + 0x65 * 2 ^ 16) in * by lia.
    assert (HF : Family (world_of (hwinit fuel w)) = IMX6ULL).
    { rewrite Hf. cbn [identified Family]. rewrite Hsv. exact Efam. }
    assert (HN : Native (world_of (hwinit fuel w)) = false).
    { rewrite Hv. cbn [identified Native]. rewrite Hsv, Emaj, Emin. exact Hn. }
    split; [exact HF|]. split; [exact HN|].
    destruct (Hsel (world_of (hwinit fuel w))) as (w' & E & Hr & _).
    exists w'. split; [exact E|]. rewrite Hr, HN. now rewrite andb_false_r.
Qed.

(** C8.  During bring-up, once the console is initialized, [hwinit] starts
    one timer source, as its last step: for family IMX6Q the global timers,
    and for families IMX6UL and IMX6ULL the generic timers, seeded with
    62500000 Hz when the native flag is false (an emulated chip) and with
    8000000 Hz when it is true.  [hwinit] gets there as soon as the reset
    wait of the console returns, and it never panics. *)
Theorem hwinit_starts_timers fuel (w : World D) :
  let sv := fst (load32 USB_ANALOG_DIGPROG (bus w)) in
  let wc := hwinit_console w in
  (forall n d',
      mu (UART2 w) = false ->
      settles (ucr2 (UART2 wc)) UCR2_SRST 1 1 n (bus (Init_armed wc)) d' ->
      (n <= fuel)%nat ->
      exists w', hwinit fuel w = Done tt w') /\
  (forall w', hwinit fuel w <> Fault w') /\
  (forall w',
      hwinit fuel w = Done tt w' ->
      exists accesses timer,
        Forall is_access accesses /\
        trace w' = trace w ++
          [Call ARM_Init; Call ARM_EnableVFP; Call ARM_CacheEnable;
           Load32 USB_ANALOG_DIGPROG sv] ++ accesses ++ [Call timer] /\
        (Family w' = IMX6Q -> timer = ARM_InitGlobalTimers) /\
        (Family w' = IMX6UL \/ Family w' = IMX6ULL -> Native w' = false ->
         timer = ARM_InitGenericTimers SYS_CNT_BASE 62500000) /\
        (Family w' = IMX6UL \/ Family w' = IMX6ULL -> Native w' = true ->
         timer = ARM_InitGenericTimers SYS_CNT_BASE 8000000)).
Proof.
  intros sv wc. split; [|split].
  - intros n d' Hmu Hs Hle. rewrite hwinit_unfold. unfold bind at 1.
    rewrite init_unfold.
    destruct (Init_returns fuel UART_DEFAULT_BAUDRATE wc n d'
                default_baudrate_divisor Hmu Hs Hle) as [w1 E1].
    change (mkWorld (bus (identified w)) (trace (identified w))
                    (Family (identified w)) (Native (identified w))
                    (getRandomDataFn (identified w))
                    (Uart_at (mu (UART2 (identified w))) UART2_BASE))
      with wc.
    rewrite E1, start_timers_run. eauto.
  - apply no_fault_hwinit.
  - intros w' E. rewrite hwinit_unfold in E. unfold bind at 1 in E.
    pose proof (quiet_init fuel UART2_BASE UART_DEFAULT_BAUDRATE (identified w))
      as [(Hf & Hn & _) (l & Hl & Hacc)].
    destruct (init fuel UART2_BASE UART_DEFAULT_BAUDRATE (identified w))
      as [[] w1 | w1 | w1]; [|discriminate..].
    cbn [world_of] in Hf, Hn, Hl.
    rewrite start_timers_run in E. injection E as <-.
    cbn [Family Native trace].
    exists l, (timer_source (Family w1) (Native w1)).
    split; [exact Hacc|]. split.
    { rewrite Hl. cbn [identified trace]. fold sv.
      rewrite <- !app_assoc. reflexivity. }
    unfold timer_source, IMX6Q, IMX6UL, IMX6ULL.
    split; [|split].
    + intros ->. reflexivity.
    + intros [-> | ->] ->; reflexivity.
    + intros [-> | ->] ->; reflexivity.
Qed.

End SocClaims.

Lemma hwinit_identifies_witness :
  Family (world_of (hwinit 5 (boot (sim_version 0x00650102)))) = IMX6ULL /\
  Native (world_of (hwinit 5 (boot (sim_version 0x00650102)))) = true.
Proof.
  destruct (hwinit_identifies 5 (boot (sim_version 0x00650102)) eq_refl)
    as (fam & maj & min & w1 & E & _ & _ & _ & HF & HN).
  rewrite SiliconVersion_run in E. injection E as Efam Emaj Emin _.
  rewrite HF, HN, <- Efam, <- Emaj, <- Emin. vm_compute. split; reflexivity.
Defined.

Lemma sim_version_imx6ull :
  fst (load32 USB_ANALOG_DIGPROG (bus (boot (sim_version 0x00650102)))) =
  0 * 2 ^ 24 + 0x65 * 2 ^ 16 + 1 * 2 ^ 8 + 2.
Proof. vm_compute. reflexivity. Qed.

Lemma Model_of_identified_witness :
  Model (world_of (hwinit 5 (boot (sim_version 0x00650102)))) =
  Done "i.MX6ULL"%string (world_of (hwinit 5 (boot (sim_version 0x00650102)))).
Proof.
  exact (proj1 (proj2 (proj2
           (Model_of_identified 5 0 (boot (sim_version 0x00650102))
                                ltac:(lia) sim_version_imx6ull)))).
Defined.

Lemma sim_version_emulated :
  fst (load32 USB_ANALOG_DIGPROG (bus (boot (sim_version 0x00650000)))) =
  0 * 2 ^ 24 + 0x65 * 2 ^ 16.
Proof. vm_compute. reflexivity. Qed.

Lemma initRNG_selects_witness :
  exists w',
    initRNG (world_of (hwinit 5 (boot (sim_version 0x00650000)))) = Done tt w' /\
    getRandomDataFn w' = Some getLCGData.
Proof.
  exact (proj2 (proj2
           (proj2 (initRNG_selects (boot (sim_version 0x00650000)))
                  5%nat 0 eq_refl ltac:(lia) sim_version_emulated))).
Defined.

Lemma bringup_reset_settles :
  settles (ucr2 (UART2 (hwinit_console (boot (sim_version 0x00640000)))))
          UCR2_SRST 1 1 3
          (bus (Init_armed (hwinit_console (boot (sim_version 0x00640000)))))
          (poll_ucr2 (poll_ucr2 (poll_ucr2
             (bus (Init_armed
                     (hwinit_console (boot (sim_version 0x00640000)))))))).
Proof.
  do 2 (apply settles_later; [vm_compute; discriminate|]).
  apply settles_now. vm_compute. reflexivity.
Qed.

Lemma hwinit_starts_timers_witness :
  exists w', hwinit 3 (boot (sim_version 0x00640000)) = Done tt w'.
Proof.
  exact (proj1 (hwinit_starts_timers 3 (boot (sim_version 0x00640000)))
               3%nat _ eq_refl bringup_reset_settles (le_n 3)).
Defined.

(** An emulated i.MX6UL brings the generic timers up at 62.5 MHz, a native
    one at 8 MHz, and an i.MX6Q starts the global timers. *)
Example hwinit_timer_emulated :
  last (trace (world_of (hwinit 3 (boot (sim_version 0x00640000)))))
  = Some (Call (ARM_InitGenericTimers SYS_CNT_BASE 62500000)).
Proof. vm_compute. reflexivity. Qed.

Example hwinit_timer_native :
  last (trace (world_of (hwinit 3 (boot (sim_version 0x00650102)))))
  = Some (Call (ARM_InitGenericTimers SYS_CNT_BASE 8000000)).
Proof. vm_compute. reflexivity. Qed.

Example hwinit_timer_imx6q :
  last (trace (world_of (hwinit 3 (boot (sim_version 0x00630100)))))
  = Some (Call ARM_InitGlobalTimers).
Proof. vm_compute. reflexivity. Qed.

(** ** [Reboot] *)

Lemma half_word_cleared y :
  wrap16 (wrap32 (Z.lor (Z.land y 0xffff0000) (wrap16 0))) = 0.
Proof.
  change (wrap16 0) with 0. rewrite Z.lor_0_r. unfold wrap16, wrap32.
  rewrite Z.mod_mod_divide by (exists (2 ^ 16); reflexivity).
  rewrite <- (Z.land_ones _ 16) by lia.
  rewrite <- Z.land_assoc. change (Z.land 0xffff0000 (Z.ones 16)) with 0.
  apply Z.land_0_r.
Qed.

Lemma cleared_bit v pos :
  0 <= pos ->
  Z.testbit (Z.land v (Z.lnot (Z.shiftl 1 pos))) pos = false /\
  forall i, 0 <= i -> i <> pos ->
    Z.testbit (Z.land v (Z.lnot (Z.shiftl 1 pos))) i = Z.testbit v i.
Proof.
  intros Hp. split.
  - rewrite Z.land_spec, Z.lnot_spec, Z.shiftl_spec by lia.
    rewrite Z.sub_diag. cbn. apply andb_false_r.
  - intros i Hi Hne.
    rewrite Z.land_spec, Z.lnot_spec, Z.shiftl_spec by lia.
    destruct (Z.ltb_spec i pos).
    + rewrite (Z.testbit_neg_r 1 (i - pos)) by lia. apply andb_true_r.
    + replace (Z.testbit 1 (i - pos)) with false; [apply andb_true_r|].
      symmetry. apply (Z.bits_above_log2 1 (i - pos)); cbn; lia.
Qed.

(** C6.  [Reboot] first clears the warm-reset-enable bit of SRC_SCR, by a
    read, modify and write of the word that leaves its other bits as they
    were, and then writes zero to WDOG1_WCR with a 16-bit access; both
    always happen, in that order.  On a register file, after the call the
    warm-reset-enable bit of SRC_SCR reads 0 and WDOG1_WCR reads 0. *)
Theorem Reboot_clears_and_resets :
  (forall D (HB : Bus D) (w : World D),
      let v := fst (load32 SRC_SCR (bus w)) in
      exists v' w',
        Reboot w = Done tt w' /\
        trace w' = trace w ++
          [Load32 SRC_SCR v; Store32 SRC_SCR v'; Store16 WDOG1_WCR 0] /\
        bus w' = store16 WDOG1_WCR 0
                   (store32 SRC_SCR v' (snd (load32 SRC_SCR (bus w)))) /\
        Z.testbit v' SCR_WARM_RESET_ENABLE = false /\
        (forall i, 0 <= i -> i <> SCR_WARM_RESET_ENABLE ->
                   Z.testbit v' i = Z.testbit v i)) /\
  (forall w : World (gmap Z Z),
      exists w',
        Reboot w = Done tt w' /\
        Z.testbit (fst (load32 SRC_SCR (bus w'))) SCR_WARM_RESET_ENABLE = false /\
        mock_load16 WDOG1_WCR (bus w') = 0).
Proof.
  split.
  - intros D HB w v.
    destruct (cleared_bit v SCR_WARM_RESET_ENABLE ltac:(discriminate))
      as [Hc Hk].
    exists (Z.land v (Z.lnot (Z.shiftl 1 SCR_WARM_RESET_ENABLE))).
    eexists. split; [reflexivity|]. unfold set_bus. cbn [trace bus].
    split; [now rewrite <- ?app_assoc|]. split; [reflexivity|].
    split; [exact Hc | exact Hk].
  - intros w. eexists. split; [reflexivity|].
    cbn [bus load32 store32 store16 mock_bus fst snd mock_load32].
    unfold mock_load16, mock_load32, mock_store16, mock_store32, set_bus.
    cbn [fst bus].
    split.
    + rewrite lookup_insert_ne by discriminate. rewrite lookup_insert_eq.
      cbn [from_option]. unfold id.
      rewrite !wrap32_bit_low by (unfold SCR_WARM_RESET_ENABLE; lia).
      apply cleared_bit. discriminate.
    + rewrite lookup_insert_eq. cbn [from_option]. unfold id.
      apply half_word_cleared.
Qed.

Example Reboot_on_mock :
  let w' := world_of (Reboot
              (boot (<[SRC_SCR := 7]> (<[WDOG1_WCR := 0x12345678]> ∅)))) in
  trace w' = [Load32 SRC_SCR 7; Store32 SRC_SCR 6; Store16 WDOG1_WCR 0] /\
  fst (load32 SRC_SCR (bus w')) = 6 /\
  fst (load32 WDOG1_WCR (bus w')) = 0x12340000 /\
  mock_load16 WDOG1_WCR (bus w') = 0.
Proof. vm_compute. repeat split. Qed.

(** * Further properties of the code *)

(** ** [UniqueID] and [SiliconVersion] *)

Lemma byte_at_bits v p k i :
  0 <= p -> 0 <= k -> 0 <= i ->
  Z.testbit (Z.shiftl (Z.shiftr v p mod 2 ^ 8) k) i =
  (k <=? i) && (i <? k + 8) && Z.testbit v (p + (i - k)).
Proof.
  intros Hp Hk Hi. rewrite Z.shiftl_spec by lia.
  destruct (Z.leb_spec k i) as [Hle | Hlt].
  - rewrite <- land_255, field_byte_bits by lia. cbn [andb].
    destruct (Z.ltb_spec (i - k) 8), (Z.ltb_spec i (k + 8)); try lia; reflexivity.
  - rewrite Z.testbit_neg_r by lia. reflexivity.
Qed.

Lemma high_bits_clear v i : 0 <= v < 2 ^ 32 -> 32 <= i -> Z.testbit v i = false.
Proof.
  intros Hv Hi. destruct (Z.eq_dec v 0) as [-> | Hnz]; [apply Z.bits_0|].
  apply Z.bits_above_log2; [lia|].
  assert (Z.log2 v < 32) by (apply Z.log2_lt_pow2; lia). lia.
Qed.

(** Four bytes, least significant first, put back together. *)
Lemma le_bytes_roundtrip v :
  0 <= v < 2 ^ 32 ->
  Z.lor (Z.lor (Z.lor (v mod 2 ^ 8) (Z.shiftl (Z.shiftr v 8 mod 2 ^ 8) 8))
               (Z.shiftl (Z.shiftr v 16 mod 2 ^ 8) 16))
        (Z.shiftl (Z.shiftr v 24 mod 2 ^ 8) 24) = v.
Proof.
  intros Hv. apply Z.bits_inj'. intros i Hi.
  rewrite !Z.lor_spec, !byte_at_bits by lia.
  pose proof (byte_at_bits v 0 0 i ltac:(lia) ltac:(lia) Hi) as H0.
  rewrite Z.shiftr_0_r, Z.shiftl_0_r in H0. rewrite H0. clear H0.
  destruct (Z.leb_spec 0 i), (Z.ltb_spec i (0 + 8)),
    (Z.leb_spec 8 i), (Z.ltb_spec i (8 + 8)),
    (Z.leb_spec 16 i), (Z.ltb_spec i (16 + 8)),
    (Z.leb_spec 24 i), (Z.ltb_spec i (24 + 8));
    try lia; cbn [andb orb]; rewrite ?orb_false_r;
    try (f_equal; lia).
  symmetry. apply high_bits_clear; [exact Hv | lia].
Qed.

Section Identity.
Context {D : Type} `{Bus D}.

(** X1.  [UniqueID] loads OCOTP_CFG0 and then OCOTP_CFG1, writes nothing,
    and returns eight bytes from which the two words read back: bytes 0..3
    are the little-endian encoding of the first word, bytes 4..7 of the
    second. *)
Theorem UniqueID_little_endian (w : World D) :
  let cfg0 := fst (load32 OCOTP_CFG0 (bus w)) in
  let cfg1 := fst (load32 OCOTP_CFG1 (snd (load32 OCOTP_CFG0 (bus w)))) in
  exists uid w',
    UniqueID w = Done uid w' /\
    length uid = 8%nat /\
    Forall (fun x => 0 <= x < 256) uid /\
    Uint32 0 uid = cfg0 /\
    Uint32 4 uid = cfg1 /\
    trace w' = trace w ++ [Load32 OCOTP_CFG0 cfg0; Load32 OCOTP_CFG1 cfg1] /\
    bus w' = snd (load32 OCOTP_CFG1 (snd (load32 OCOTP_CFG0 (bus w)))).
Proof.
  intros cfg0 cfg1.
  pose proof (load32_range OCOTP_CFG0 (bus w)) as H0.
  pose proof (load32_range OCOTP_CFG1 (snd (load32 OCOTP_CFG0 (bus w)))) as H1.
  fold cfg0 in H0. fold cfg1 in H1.
  eexists _, _. split; [reflexivity|].
  unfold set_bus. cbn [trace bus PutUint32 replicate Nat.add].
  split; [reflexivity|]. split.
  { repeat constructor; try (apply Z.mod_pos_bound; lia);
      apply Z.mod_pos_bound; lia. }
  split; [exact (le_bytes_roundtrip cfg0 H0)|].
  split; [exact (le_bytes_roundtrip cfg1 H1)|].
  split; [now rewrite <- app_assoc | reflexivity].
Qed.

(** X2.  The three fields [SiliconVersion] returns are bytes, and together
    they are the low 24 bits of the version word: the top byte of the word
    is not looked at.  The call is one load of USB_ANALOG_DIGPROG, and the
    word itself is returned first. *)
Theorem SiliconVersion_fields (w : World D) :
  let sv := fst (load32 USB_ANALOG_DIGPROG (bus w)) in
  exists family revMajor revMinor w',
    SiliconVersion w = Done (sv, family, revMajor, revMinor) w' /\
    0 <= family < 256 /\ 0 <= revMajor < 256 /\ 0 <= revMinor < 256 /\
    family * 2 ^ 16 + revMajor * 2 ^ 8 + revMinor = sv mod 2 ^ 24 /\
    trace w' = trace w ++ [Load32 USB_ANALOG_DIGPROG sv].
Proof.
  intros sv. rewrite SiliconVersion_run. fold sv.
  eexists _, _, _, _. split; [reflexivity|].
  rewrite !land_255, !Z.shiftr_div_pow2 by lia.
  change (2 ^ 24) with 16777216. change (2 ^ 16) with 65536.
  change (2 ^ 8) with 256.
  repeat split; try (Z.div_mod_to_equations; lia).
Qed.

End Identity.

Example UniqueID_on_mock :
  match UniqueID (boot (<[OCOTP_CFG0 := 0x11223344]>
                          (<[OCOTP_CFG1 := 0xaabbccdd]> (∅ : gmap Z Z)))) with
  | Done uid _ => uid = [0x44; 0x33; 0x22; 0x11; 0xdd; 0xcc; 0xbb; 0xaa]
  | _ => False
  end.
Proof. vm_compute. reflexivity. Qed.

(** ** The mutex, the register block and the panics of [Init] *)

Section InitMore.
Context {D : Type} `{Bus D} `{ClockTree}.

Ltac run_tail lem :=
  unfold bind at 1; rewrite lem; cbv beta iota zeta;
  cbn [bus trace Family Native getRandomDataFn UART2].

Lemma Init_tail_done_uart hw b (w : World D) :
  wrap32 (2 * b) <> 0 ->
  exists w', Init_tail hw b w = Done tt w' /\ UART2 w' = unlocked (UART2 w).
Proof.
  intros Hb. unfold Init_tail.
  run_tail reg_Write_run. run_tail reg_SetN_run. run_tail reg_Write_run.
  run_tail reg_Write_run. run_tail reg_Write_run. run_tail uartclk_run.
  unfold bind at 1, udiv at 1. change (6 =? 0) with false. cbv iota.
  unfold bind at 1, udiv at 1.
  destruct (Z.eqb_spec (wrap32 (2 * b)) 0) as [E | _]; [contradiction|].
  run_tail reg_Write_run. run_tail reg_Write_run. run_tail reg_Write_run.
  run_tail reg_Set_run. unfold Unlock, put_hw.
  cbn [bus trace Family Native getRandomDataFn UART2].
  eexists. split; reflexivity.
Qed.

Lemma Init_tail_fault_uart hw b (w : World D) :
  wrap32 (2 * b) = 0 ->
  exists w' x v1 v2,
    Init_tail hw b w = Fault w' /\ UART2 w' = UART2 w /\
    trace w' = trace w ++
      [Store32 (ucr3 hw) ucr3_value;
       Load32 (ucr4 hw) x;
       Store32 (ucr4 hw)
         (wrap32 (Z.lor (Z.land x (Z.lnot (Z.shiftl 63 UCR4_CTSTL)))
                        (Z.shiftl 32 UCR4_CTSTL)));
       Store32 (uesc hw) ESC;
       Store32 (utim hw) 0;
       Store32 (ufcr hw) ufcr_value;
       Load32 CCM_CSCDR1 v1;
       Load32 CCM_CSCDR1 v2].
Proof.
  intros Hb. unfold Init_tail.
  run_tail reg_Write_run. run_tail reg_SetN_run. run_tail reg_Write_run.
  run_tail reg_Write_run. run_tail reg_Write_run. run_tail uartclk_run.
  unfold bind at 1, udiv at 1. change (6 =? 0) with false. cbv iota.
  unfold bind at 1, udiv at 1. rewrite Hb. cbn [Z.eqb].
  eexists _, _, _, _. split; [reflexivity|]. split; [reflexivity|].
  cbn [trace]. rewrite <- !app_assoc. reflexivity.
Qed.

Lemma unlocked_locked hw : unlocked (locked hw) = unlocked hw.
Proof. reflexivity. Qed.

Lemma Init_armed_uart (w : World D) : UART2 (Init_armed w) = locked (UART2 w).
Proof. reflexivity. Qed.

(** Whatever becomes of [Init], the register addresses of the receiver are
    as they were. *)
Lemma Init_block fuel b (w : World D) :
  unlocked (UART2 (world_of (Init fuel b w))) = unlocked (UART2 w).
Proof.
  rewrite Init_split. destruct (mu (UART2 w)); [reflexivity|].
  unfold bind at 1.
  pose proof (reg_Wait_trace (ucr2 (UART2 w)) UCR2_SRST 1 1 fuel (Init_armed w))
    as (polls & _ & Hu & _).
  destruct (reg_Wait fuel (ucr2 (UART2 w)) UCR2_SRST 1 1 (Init_armed w))
    as [[] w1 | w1 | w1]; cbn [world_of] in *;
    try (rewrite Hu; reflexivity).
  destruct (Z.eq_dec (wrap32 (2 * b)) 0) as [Hb | Hb].
  - destruct (Init_tail_fault_uart (UART2 (Init_armed w)) b w1 Hb)
      as (w2 & _ & _ & _ & E & Hu2 & _).
    rewrite E. cbn [world_of]. rewrite Hu2, Hu. reflexivity.
  - destruct (Init_tail_done_uart (UART2 (Init_armed w)) b w1 Hb)
      as (w2 & E & Hu2).
    rewrite E. cbn [world_of]. rewrite Hu2, Hu. reflexivity.
Qed.

Lemma addresses_unlocked hw : addresses (unlocked hw) = addresses hw.
Proof. reflexivity. Qed.

(** X3.  [init] assigns the thirteen register addresses, the base plus the
    offsets of the register map, whatever becomes of the [Init] it ends
    with; for a block that fits below 2^32 the addresses do not wrap, are
    pairwise distinct, and are word-aligned when the base is. *)
Theorem init_assigns_block fuel base b (w : World D) :
  0 <= base -> base + UARTx_UTS < 2 ^ 32 ->
  let hw := UART2 (world_of (init fuel base b w)) in
  addresses hw =
    map (Z.add base)
        [UARTx_URXD; UARTx_UTXD; UARTx_UCR1; UARTx_UCR2; UARTx_UCR3;
         UARTx_UCR4; UARTx_UFCR; UARTx_USR2; UARTx_UESC; UARTx_UTIM;
         UARTx_UBIR; UARTx_UBMR; UARTx_UTS] /\
  NoDup (addresses hw) /\
  (base mod 4 = 0 -> Forall (fun a => a mod 4 = 0) (addresses hw)).
Proof.
  intros Hb0 Hb1 hw.
  assert (E : addresses hw =
              map (Z.add base)
                  [UARTx_URXD; UARTx_UTXD; UARTx_UCR1; UARTx_UCR2; UARTx_UCR3;
                   UARTx_UCR4; UARTx_UFCR; UARTx_USR2; UARTx_UESC; UARTx_UTIM;
                   UARTx_UBIR; UARTx_UBMR; UARTx_UTS]).
  { subst hw. rewrite <- addresses_unlocked, init_unfold, Init_block.
    cbn [UART2]. unfold addresses, unlocked, Uart_at.
    cbn [urxd utxd ucr1 ucr2 ucr3 ucr4 ufcr usr2 uesc utim ubir ubmr uts map].
    unfold UARTx_UTS in Hb1.
    unfold UARTx_URXD, UARTx_UTXD, UARTx_UCR1, UARTx_UCR2, UARTx_UCR3,
      UARTx_UCR4, UARTx_UFCR, UARTx_USR2, UARTx_UESC, UARTx_UTIM,
      UARTx_UBIR, UARTx_UBMR, UARTx_UTS.
    rewrite !wrap32_small by lia. reflexivity. }
  split; [exact E|]. rewrite E. cbn [map].
  unfold UARTx_URXD, UARTx_UTXD, UARTx_UCR1, UARTx_UCR2, UARTx_UCR3,
    UARTx_UCR4, UARTx_UFCR, UARTx_USR2, UARTx_UESC, UARTx_UTIM,
    UARTx_UBIR, UARTx_UBMR, UARTx_UTS.
  split.
  - repeat (apply NoDup_cons; split;
            [rewrite ?elem_of_cons, elem_of_nil; lia|]).
    apply NoDup_nil_2.
  - intros Ha. repeat (constructor; [Z.div_mod_to_equations; lia|]).
    constructor.
Qed.

(** X4.  With the mutex of the receiver held, [Init] never returns,
    whatever the number of polls allowed, and it touches no register;
    [init] likewise, after it has reassigned the addresses of the
    receiver. *)
Theorem Init_blocks_on_held_mutex fuel base b (w : World D) :
  mu (UART2 w) = true ->
  Init fuel b w = Spin w /\
  exists w', init fuel base b w = Spin w' /\
             trace w' = trace w /\ bus w' = bus w /\
             UART2 w' = Uart_at true base.
Proof.
  intros Hmu. split.
  - rewrite Init_split, Hmu. reflexivity.
  - rewrite init_unfold, Init_split. cbn [UART2 Uart_at mu]. rewrite Hmu.
    eexists. split; [reflexivity|]. repeat split.
Qed.

(** X5.  [Init] releases the mutex when it returns, and only then: a call
    that panicked on its division has left the mutex held (there is no
    deferred unlock), has programmed neither UBIR, UBMR nor the enable
    bits, and every later [Init] on the same receiver blocks for ever. *)
Theorem Init_mutex_discipline fuel b (w w1 : World D) :
  (Init fuel b w = Done tt w1 -> UART2 w1 = unlocked (UART2 w)) /\
  (Init fuel b w = Fault w1 ->
   UART2 w1 = locked (UART2 w) /\
   (forall fuel' b', Init fuel' b' w1 = Spin w1) /\
   exists polls x v1 v2,
     let hw := UART2 w in
     trace w1 = trace w ++
       [Store32 (ucr1 hw) 0; Store32 (ucr2 hw) 0] ++
       map (Load32 (ucr2 hw)) polls ++
       [Store32 (ucr3 hw) ucr3_value;
        Load32 (ucr4 hw) x;
        Store32 (ucr4 hw)
          (wrap32 (Z.lor (Z.land x (Z.lnot (Z.shiftl 63 UCR4_CTSTL)))
                         (Z.shiftl 32 UCR4_CTSTL)));
        Store32 (uesc hw) ESC;
        Store32 (utim hw) 0;
        Store32 (ufcr hw) ufcr_value;
        Load32 CCM_CSCDR1 v1;
        Load32 CCM_CSCDR1 v2]).
Proof.
  rewrite Init_split. destruct (mu (UART2 w)) eqn:Hmu.
  { split; discriminate. }
  unfold bind at 1 2.
  pose proof (reg_Wait_trace (ucr2 (UART2 w)) UCR2_SRST 1 1 fuel (Init_armed w))
    as (polls & Ht & Hu & Hm).
  destruct (reg_Wait fuel (ucr2 (UART2 w)) UCR2_SRST 1 1 (Init_armed w))
    as [[] w0 | w0 | w0]; cbn [world_of] in *;
    [| contradiction | split; discriminate].
  destruct (Z.eq_dec (wrap32 (2 * b)) 0) as [Hb | Hb].
  - destruct (Init_tail_fault_uart (UART2 (Init_armed w)) b w0 Hb)
      as (w2 & x & v1 & v2 & E & Hu2 & Ht2).
    rewrite E. split; [discriminate|]. intros Ew. injection Ew as <-.
    split; [rewrite Hu2, Hu; reflexivity|]. split.
    + intros fuel' b'. rewrite Init_split, Hu2, Hu. reflexivity.
    + exists polls, x, v1, v2. cbv zeta. rewrite Ht2, Ht.
      cbn [Init_armed trace]. rewrite <- !app_assoc. reflexivity.
  - destruct (Init_tail_done_uart (UART2 (Init_armed w)) b w0 Hb)
      as (w2 & E & Hu2).
    rewrite E. split; [|discriminate]. intros Ew. injection Ew as <-.
    rewrite Hu2, Hu. reflexivity.
Qed.

(** X6.  Once the reset wait has returned, [Init] panics on its division
    for exactly two baud rates of the [uint32] range: 0, and 2^31, whose
    double wraps to 0. *)
Theorem Init_panics_iff fuel b (w : World D) n d' :
  0 <= b < 2 ^ 32 ->
  mu (UART2 w) = false ->
  settles (ucr2 (UART2 w)) UCR2_SRST 1 1 n (bus (Init_armed w)) d' ->
  (n <= fuel)%nat ->
  (exists w', Init fuel b w = Fault w') <-> (b = 0 \/ b = 2 ^ 31).
Proof.
  intros Hb Hmu Hs Hle. rewrite <- (double_wraps_to_zero b Hb). split.
  - intros [w' E]. destruct (Z.eq_dec (wrap32 (2 * b)) 0) as [Hz | Hz];
      [exact Hz|].
    exfalso. exact (no_fault_Init fuel b Hz w w' E).
  - intros Hz. exact (Init_faults fuel b w n d' Hz Hmu Hs Hle).
Qed.

(** X7.  An [Init] still waiting for the reset to deassert after [fuel]
    polls has taken the mutex, cleared UCR1 and UCR2, and then only read
    UCR2, [fuel] times, each time with the reset bit at 0: the UART is left
    disabled and nothing else is written. *)
Theorem Init_pending fuel b (w w1 : World D) :
  mu (UART2 w) = false ->
  Init fuel b w = Spin w1 ->
  let hw := UART2 w in
  exists polls,
    trace w1 = trace w ++
      [Store32 (ucr1 hw) 0; Store32 (ucr2 hw) 0] ++
      map (Load32 (ucr2 hw)) polls /\
    length polls = fuel /\
    Forall (fun x => Z.testbit x UCR2_SRST = false) polls /\
    UART2 w1 = locked hw.
Proof.
  intros Hmu E hw. rewrite Init_split, Hmu in E. unfold bind at 1 in E.
  pose proof (reg_Wait_trace (ucr2 (UART2 w)) UCR2_SRST 1 1 fuel (Init_armed w))
    as (polls & Ht & Hu & Hm).
  destruct (reg_Wait fuel (ucr2 (UART2 w)) UCR2_SRST 1 1 (Init_armed w))
    as [[] w0 | w0 | w0]; cbn [world_of] in *; [| contradiction |].
  - exfalso. destruct (Z.eq_dec (wrap32 (2 * b)) 0) as [Hb | Hb].
    + destruct (Init_tail_fault_uart (UART2 (Init_armed w)) b w0 Hb)
        as (w2 & _ & _ & _ & E2 & _). rewrite E2 in E. discriminate.
    + destruct (Init_tail_done_uart (UART2 (Init_armed w)) b w0 Hb)
        as (w2 & E2 & _). rewrite E2 in E. discriminate.
  - injection E as <-. destruct Hm as [Hl Hmiss]. exists polls.
    split; [|split; [exact Hl | split]].
    + rewrite Ht. cbn [Init_armed trace]. now rewrite <- app_assoc.
    + apply missed_bit; [discriminate | exact Hmiss].
    + rewrite Hu. reflexivity.
Qed.

End InitMore.

Lemma init_assigns_block_witness :
  addresses (UART2 (world_of (init 3 UART2_BASE 115200 (boot sim0)))) =
  [0x021e8000; 0x021e8040; 0x021e8080; 0x021e8084; 0x021e8088; 0x021e808c;
   0x021e8090; 0x021e8098; 0x021e809c; 0x021e80a0; 0x021e80a4; 0x021e80a8;
   0x021e80b4].
Proof.
  exact (proj1 (init_assigns_block 3 UART2_BASE 115200 (boot sim0)
                                   ltac:(vm_compute; discriminate)
                                   ltac:(vm_compute; reflexivity))).
Defined.

Lemma Init_blocks_on_held_mutex_witness :
  Init 3 115200 (console_held sim0) = Spin (console_held sim0).
Proof.
  exact (proj1 (Init_blocks_on_held_mutex 3 UART2_BASE 115200
                                          (console_held sim0) eq_refl)).
Defined.

Lemma Init_zero_baud_faults :
  Init 3 0 (console sim0) = Fault (world_of (Init 3 0 (console sim0))).
Proof. vm_compute. reflexivity. Qed.

Lemma Init_mutex_discipline_witness :
  Init 3 115200 (world_of (Init 3 0 (console sim0))) =
  Spin (world_of (Init 3 0 (console sim0))).
Proof.
  exact (proj1 (proj2 (proj2 (Init_mutex_discipline
                                3 0 (console sim0)
                                (world_of (Init 3 0 (console sim0))))
                             Init_zero_baud_faults))
               3%nat 115200).
Defined.

Lemma Init_panics_iff_witness :
  exists w', Init 3 0 (console sim0) = Fault w'.
Proof.
  exact (proj2 (Init_panics_iff 3 0 (console sim0) 3 _
                                ltac:(lia) eq_refl console_reset_settles
                                (le_n 3))
               (or_introl eq_refl)).
Defined.

Lemma Init_short_of_polls :
  Init 2 115200 (console sim0) =
  Spin (world_of (Init 2 115200 (console sim0))).
Proof. vm_compute. reflexivity. Qed.

Lemma Init_pending_witness :
  UART2 (world_of (Init 2 115200 (console sim0))) =
  locked (Uart_at false UART2_BASE).
Proof.
  destruct (Init_pending 2 115200 (console sim0)
                         (world_of (Init 2 115200 (console sim0)))
                         eq_refl Init_short_of_polls)
    as (polls & _ & _ & _ & Hu).
  exact Hu.
Defined.

(** ** [uartclk], [Read] and [Write] *)

Section DriverMore.
Context {D : Type} `{Bus D} `{ClockTree}.

(** X8.  [uartclk] reads CCM_CSCDR1 twice and writes nothing; the source
    bit of the first word read selects OSC_FREQ when set and VCO_FREQ when
    clear, the low six bits of the divider field of the second word give
    the divisor less one; the result lies between a 64th of the selected
    frequency and that frequency, so it is a [uint32], and the call never
    panics. *)
Theorem uartclk_resolves (w : World D) :
  let v1 := fst (load32 CCM_CSCDR1 (bus w)) in
  let v2 := fst (load32 CCM_CSCDR1 (snd (load32 CCM_CSCDR1 (bus w)))) in
  let freq := if Z.testbit v1 CSCDR1_UART_CLK_SEL then OSC_FREQ else VCO_FREQ in
  exists clk w',
    uartclk w = Done clk w' /\
    clk = freq / (Z.shiftr v2 CSCDR1_CLK_PODF mod 64 + 1) /\
    freq / 64 <= clk <= freq /\
    0 <= clk < 2 ^ 32 /\
    trace w' = trace w ++ [Load32 CCM_CSCDR1 v1; Load32 CCM_CSCDR1 v2].
Proof.
  intros v1 v2 freq. rewrite uartclk_run. fold v1 v2.
  eexists _, _. split; [reflexivity|].
  assert (Hf : 0 <= freq < 2 ^ 32).
  { subst freq. destruct (Z.testbit v1 CSCDR1_UART_CLK_SEL);
      [apply OSC_FREQ_u32 | apply VCO_FREQ_u32]. }
  assert (Hclk : uartclk_of v1 v2 =
                 freq / (Z.shiftr v2 CSCDR1_CLK_PODF mod 64 + 1)).
  { unfold uartclk_of. rewrite field_bit_eq1 by apply CSCDR1_UART_CLK_SEL_pos.
    change 63 with (Z.ones 6). rewrite Z.land_ones by lia. reflexivity. }
  rewrite Hclk.
  pose proof (Z.mod_pos_bound (Z.shiftr v2 CSCDR1_CLK_PODF) 64 ltac:(lia)) as Hd.
  set (d := Z.shiftr v2 CSCDR1_CLK_PODF mod 64 + 1) in *.
  assert (Hlo : freq / 64 <= freq / d)
    by (apply Z.div_le_compat_l; lia).
  assert (Hhi : freq / d <= freq)
    by (apply Z.div_le_upper_bound; nia).
  assert (Hnn : 0 <= freq / d) by (apply Z.div_pos; lia).
  repeat split; try lia.
Qed.

Lemma Read_cases (w : World D) :
  (Z.testbit (Read_status w) USR2_RDR = false) \/
  (Z.testbit (Read_status w) USR2_RDR = true /\
   Z.land (Z.shiftr (Read_examined w) URXD_PRERR) 31 <> 0) \/
  (Z.testbit (Read_status w) USR2_RDR = true /\
   Z.land (Z.shiftr (Read_examined w) URXD_PRERR) 31 = 0).
Proof.
  destruct (Z.testbit (Read_status w) USR2_RDR); [right | left; reflexivity].
  destruct (Z.eq_dec (Z.land (Z.shiftr (Read_examined w) URXD_PRERR) 31) 0);
    [right | left]; split; auto.
Qed.

(** X9.  [Read] is a single poll: it always returns, after one to three
    loads, all of the status or the receive-data register, and no store; the
    byte returned is below 256 and is 0 whenever the result is not valid;
    the package variables and the receiver are left as they were. *)
Theorem Read_is_one_poll (w : World D) :
  let hw := UART2 w in
  exists c valid w' loads,
    Read w = Done (c, valid) w' /\
    0 <= c < 256 /\
    (valid = false -> c = 0) /\
    trace w' = trace w ++ map (fun '(a, v) => Load32 a v) loads /\
    (1 <= length loads <= 3)%nat /\
    Forall (fun '(a, _) => a = usr2 hw \/ a = urxd hw) loads /\
    same_globals w w' /\ UART2 w' = UART2 w.
Proof.
  intros hw. destruct (Read_cases w) as [Hs | [[Hs He] | [Hs He]]].
  - rewrite Read_not_ready by exact Hs.
    eexists 0, false, _, [(usr2 hw, Read_status w)].
    split; [reflexivity|]. cbn [map length trace UART2].
    repeat split; try lia.
    repeat (apply List.Forall_cons; [cbn; auto|]). apply List.Forall_nil.
  - rewrite Read_error by assumption.
    eexists 0, false, _,
      [(usr2 hw, Read_status w); (urxd hw, Read_examined w)].
    split; [reflexivity|]. cbn [map length trace UART2].
    repeat split; try lia.
    repeat (apply List.Forall_cons; [cbn; auto|]). apply List.Forall_nil.
  - rewrite Read_success by assumption.
    eexists (Read_data w mod 2 ^ 8), true, _,
      [(usr2 hw, Read_status w); (urxd hw, Read_examined w);
       (urxd hw, Read_data w)].
    split; [reflexivity|]. cbn [map length trace UART2].
    pose proof (Z.mod_pos_bound (Read_data w) (2 ^ 8) ltac:(lia)).
    repeat split; try lia; try discriminate.
    repeat (apply List.Forall_cons; [cbn; auto|]). apply List.Forall_nil.
Qed.

Lemma Write_returned fuel c (w w' : World D) :
  Write fuel c w = Done tt w' ->
  exists vs v,
    trace w' = trace w ++
      Store32 (utxd (UART2 w)) c :: map (Load32 (uts (UART2 w))) (vs ++ [v]) /\
    Forall (fun x => Z.testbit x UTS_TXEMPTY = false) vs /\
    Z.testbit v UTS_TXEMPTY = true /\
    UART2 w' = UART2 w.
Proof.
  rewrite Write_unfold. intros E.
  match type of E with
  | reg_Wait fuel ?a ?p ?m ?v ?W = _ =>
      destruct (reg_Wait_trace a p m v fuel W) as (polls & Ht & Hu & Hm)
  end.
  rewrite E in Ht, Hu, Hm. cbn [world_of trace UART2] in Ht, Hu.
  destruct Hm as (vs & v & -> & Hmiss & Hv). exists vs, v.
  split; [rewrite Ht; now rewrite <- app_assoc|].
  split; [apply missed_bit; [discriminate | exact Hmiss]|].
  split; [|exact Hu].
  rewrite field_bit in Hv by discriminate.
  now destruct (Z.testbit v UTS_TXEMPTY).
Qed.

(** X12.  Two calls of [Write] in a row transmit in order and never overlap:
    when both have returned, the second byte was stored only after a poll
    of the first call had read TXEMPTY = 1, and no store but the two bytes
    was made. *)
Theorem Write_twice_in_order fuel1 fuel2 c1 c2 (w w' : World D) :
  (Write fuel1 c1 ;; Write fuel2 c2) w = Done tt w' ->
  let hw := UART2 w in
  exists vs1 v1 vs2 v2,
    trace w' = trace w ++
      Store32 (utxd hw) c1 :: map (Load32 (uts hw)) (vs1 ++ [v1]) ++
      Store32 (utxd hw) c2 :: map (Load32 (uts hw)) (vs2 ++ [v2]) /\
    Z.testbit v1 UTS_TXEMPTY = true /\
    Z.testbit v2 UTS_TXEMPTY = true /\
    Forall (fun x => Z.testbit x UTS_TXEMPTY = false) (vs1 ++ vs2).
Proof.
  intros E hw. unfold bind at 1 in E.
  destruct (Write fuel1 c1 w) as [[] w1 | w1 | w1] eqn:E1; [|discriminate..].
  destruct (Write_returned fuel1 c1 w w1 E1) as (vs1 & v1 & Ht1 & Hm1 & Hv1 & Hu1).
  destruct (Write_returned fuel2 c2 w1 w' E) as (vs2 & v2 & Ht2 & Hm2 & Hv2 & Hu2).
  exists vs1, v1, vs2, v2. rewrite Hu1 in Ht2. fold hw in Ht1, Ht2.
  split; [|split; [exact Hv1 | split; [exact Hv2|]]].
  - rewrite Ht2, Ht1. rewrite <- app_assoc. reflexivity.
  - apply Forall_app. split; assumption.
Qed.

(** [Write] and [Read] do not look at the mutex. *)
Lemma reg_Wait_with_uart hw fuel a p m v :
  forall w : World D,
    reg_Wait fuel a p m v (with_uart hw w) =
    match reg_Wait fuel a p m v w with
    | Done x w' => Done x (with_uart hw w')
    | Fault w' => Fault (with_uart hw w')
    | Spin w' => Spin (with_uart hw w')
    end.
Proof.
  induction fuel as [|fuel IH]; intros w; [reflexivity|].
  rewrite !reg_Wait_S. cbv zeta. cbn [with_uart bus trace].
  destruct (_ =? v); [reflexivity|].
  apply (IH (mkWorld (snd (load32 a (bus w)))
                     (trace w ++ [Load32 a (fst (load32 a (bus w)))])
                     (Family w) (Native w) (getRandomDataFn w) (UART2 w))).
Qed.

(** X13.  Neither [Write] nor [Read] takes the mutex: with the mutex held
    they make the same register accesses, end the same way and return the
    same result as with it free. *)
Theorem Write_Read_ignore_mutex fuel c (w : World D) :
  let wl := with_uart (locked (UART2 w)) w in
  Write fuel c wl =
    match Write fuel c w with
    | Done x w' => Done x (with_uart (locked (UART2 w)) w')
    | Fault w' => Fault (with_uart (locked (UART2 w)) w')
    | Spin w' => Spin (with_uart (locked (UART2 w)) w')
    end /\
  exists r w',
    Read w = Done r w' /\
    Read wl = Done r (with_uart (locked (UART2 w)) w').
Proof.
  intros wl. split.
  - rewrite !Write_unfold. subst wl. cbn [with_uart UART2 locked utxd uts bus
                                          trace Family Native getRandomDataFn].
    apply (reg_Wait_with_uart (locked (UART2 w)) fuel (uts (UART2 w))
             UTS_TXEMPTY 1 1
             (mkWorld (store32 (utxd (UART2 w)) c (bus w))
                      (trace w ++ [Store32 (utxd (UART2 w)) c])
                      (Family w) (Native w) (getRandomDataFn w) (UART2 w))).
  - assert (Hst : Read_status wl = Read_status w) by reflexivity.
    assert (Hex : Read_examined wl = Read_examined w) by reflexivity.
    assert (Hda : Read_data wl = Read_data w) by reflexivity.
    destruct (Read_cases w) as [Hs | [[Hs He] | [Hs He]]].
    + rewrite (Read_not_ready w), (Read_not_ready wl) by (rewrite ?Hst; exact Hs).
      eexists _, _. split; reflexivity.
    + rewrite (Read_error w), (Read_error wl)
        by (rewrite ?Hst, ?Hex; assumption).
      eexists _, _. split; reflexivity.
    + rewrite (Read_success w), (Read_success wl)
        by (rewrite ?Hst, ?Hex; assumption).
      eexists _, _. split; reflexivity.
Qed.

End DriverMore.

(** X10.  On a register file [Read] is a function of two words, the status
    word and the receive-data word: it returns the low byte of the
    receive-data word, valid, exactly when the ready bit is set and the
    error field of that same word is zero, and [(0, false)] otherwise; the
    register file is left unchanged, so the next [Read] returns the same. *)
Theorem Read_on_register_file (w : World (gmap Z Z)) :
  let status := wrap32 (default 0 (bus w !! usr2 (UART2 w))) in
  let word := wrap32 (default 0 (bus w !! urxd (UART2 w))) in
  let r := if Z.testbit status USR2_RDR &&
              (Z.land (Z.shiftr word URXD_PRERR) 31 =? 0)
           then (word mod 2 ^ 8, true) else (0, false) in
  exists w',
    Read w = Done r w' /\ bus w' = bus w /\
    exists w'', Read w' = Done r w'' /\ bus w'' = bus w.
Proof.
  intros status word r.
  assert (Hone : forall w0 : World (gmap Z Z),
             bus w0 = bus w -> UART2 w0 = UART2 w ->
             exists w', Read w0 = Done r w' /\ bus w' = bus w /\
                        UART2 w' = UART2 w).
  { intros w0 Hb Hu.
    assert (Hst : Read_status w0 = status)
      by (unfold Read_status; rewrite Hb, Hu; reflexivity).
    assert (Hex : Read_examined w0 = word)
      by (unfold Read_examined; rewrite Hb, Hu; reflexivity).
    assert (Hda : Read_data w0 = word)
      by (unfold Read_data; rewrite Hb, Hu; reflexivity).
    destruct (Read_cases w0) as [Hs | [[Hs He] | [Hs He]]].
    - rewrite Read_not_ready by exact Hs. rewrite Hst in Hs.
      subst r. rewrite Hs. cbn [andb]. eexists. repeat split; assumption.
    - rewrite Read_error by assumption. rewrite Hst in Hs. rewrite Hex in He.
      subst r. apply Z.eqb_neq in He. rewrite Hs, He. cbn [andb].
      eexists. repeat split; assumption.
    - rewrite Read_success by assumption. rewrite Hst in Hs. rewrite Hex in He.
      subst r. rewrite Hs, He, Hda. cbn [andb Z.eqb].
      eexists. repeat split; assumption. }
  destruct (Hone w eq_refl eq_refl) as (w' & E & Hb & Hu).
  exists w'. split; [exact E|]. split; [exact Hb|].
  destruct (Hone w' Hb Hu) as (w'' & E' & Hb' & _).
  exists w''. split; assumption.
Qed.

Lemma Write_twice_returns :
  (Write 4 65 ;; Write 4 66) (console sim0) =
  Done tt (world_of ((Write 4 65 ;; Write 4 66) (console sim0))).
Proof. vm_compute. reflexivity. Qed.

Lemma Write_twice_in_order_witness :
  exists vs1 v1 vs2 v2,
    trace (world_of ((Write 4 65 ;; Write 4 66) (console sim0))) =
      trace (console sim0) ++
      Store32 (utxd (UART2 (console sim0))) 65 ::
        map (Load32 (uts (UART2 (console sim0)))) (vs1 ++ [v1]) ++
      Store32 (utxd (UART2 (console sim0))) 66 ::
        map (Load32 (uts (UART2 (console sim0)))) (vs2 ++ [v2]) /\
    Z.testbit v1 UTS_TXEMPTY = true /\
    Z.testbit v2 UTS_TXEMPTY = true /\
    Forall (fun x => Z.testbit x UTS_TXEMPTY = false) (vs1 ++ vs2).
Proof.
  exact (Write_twice_in_order 4 4 65 66 (console sim0) _ Write_twice_returns).
Defined.

(** ** On a register file *)

Lemma mock_Wait_stuck fuel a p :
  0 <= p ->
  forall w : World (gmap Z Z),
    Z.testbit (wrap32 (default 0 (bus w !! a))) p = false ->
    exists w', reg_Wait fuel a p 1 1 w = Spin w' /\ bus w' = bus w /\
               UART2 w' = UART2 w.
Proof.
  intros Hp. induction fuel as [|fuel IH]; intros w Hbit.
  - exists w. repeat split.
  - rewrite reg_Wait_S. cbv zeta. rewrite field_bit_eq1 by exact Hp.
    cbn [load32 mock_bus mock_load32 fst snd]. rewrite Hbit.
    apply (IH (mkWorld (bus w)
                 (trace w ++ [Load32 a (wrap32 (default 0 (bus w !! a)))])
                 (Family w) (Native w) (getRandomDataFn w) (UART2 w))).
    exact Hbit.
Qed.

(** X11.  On a register file, where UCR2 reads back the zero [Init] has
    just written to it, the reset bit never reads 1: [Init] never returns,
    whatever the number of polls allowed, and neither does [hwinit], whose
    console initialization it is. *)
Theorem Init_never_returns_on_register_file fuel b (w : World (gmap Z Z)) :
  mu (UART2 w) = false ->
  (exists w', Init fuel b w = Spin w') /\
  (exists w', hwinit fuel w = Spin w').
Proof.
  assert (Hspin : forall b0 (w0 : World (gmap Z Z)),
             mu (UART2 w0) = false -> exists w', Init fuel b0 w0 = Spin w').
  { intros b0 w0 Hmu. rewrite Init_split, Hmu. unfold bind at 1.
    destruct (mock_Wait_stuck fuel (ucr2 (UART2 w0)) UCR2_SRST
                ltac:(discriminate) (Init_armed w0)) as (w' & E & _).
    - cbn [Init_armed bus store32 mock_bus]. unfold mock_store32.
      rewrite lookup_insert_eq. reflexivity.
    - rewrite E. eauto. }
  intros Hmu. split; [apply Hspin; exact Hmu|].
  rewrite hwinit_unfold. unfold bind at 1. rewrite init_unfold.
  match goal with
  | |- context [Init fuel UART_DEFAULT_BAUDRATE ?W] =>
      destruct (Hspin UART_DEFAULT_BAUDRATE W) as [w' E]; [exact Hmu|]
  end.
  rewrite E. eauto.
Qed.

Lemma Init_never_returns_on_register_file_witness :
  exists w',
    Init 5 115200 (mkWorld (∅ : gmap Z Z) [] 0 false None
                           (Uart_at false UART2_BASE)) = Spin w'.
Proof.
  exact (proj1 (Init_never_returns_on_register_file
                  5 115200
                  (mkWorld (∅ : gmap Z Z) [] 0 false None
                           (Uart_at false UART2_BASE)) eq_refl)).
Defined.

Lemma Write_never_returns_on_stuck_mock_witness :
  exists w',
    Write 5 65 (mkWorld (∅ : gmap Z Z) [] 0 false None
                        (Uart_at false UART2_BASE)) = Spin w'.
Proof.
  exact (Write_never_returns_on_stuck_mock
           5 65 (mkWorld (∅ : gmap Z Z) [] 0 false None
                         (Uart_at false UART2_BASE))
           ltac:(vm_compute; discriminate) eq_refl).
Defined.

(** ** More on bring-up and the entropy source *)

Section BringupMore.
Context {D : Type} `{Bus D} `{ClockTree}.

Lemma Init_done_uart fuel b (w w1 : World D) :
  Init fuel b w = Done tt w1 -> UART2 w1 = unlocked (UART2 w).
Proof.
  rewrite Init_split. destruct (mu (UART2 w)); [discriminate|].
  unfold bind at 1.
  pose proof (reg_Wait_trace (ucr2 (UART2 w)) UCR2_SRST 1 1 fuel (Init_armed w))
    as (polls & _ & Hu & _).
  destruct (reg_Wait fuel (ucr2 (UART2 w)) UCR2_SRST 1 1 (Init_armed w))
    as [[] w0 | w0 | w0]; cbn [world_of] in *; try discriminate.
  destruct (Z.eq_dec (wrap32 (2 * b)) 0) as [Hb | Hb].
  - destruct (Init_tail_fault_uart (UART2 (Init_armed w)) b w0 Hb)
      as (w2 & _ & _ & _ & E & _). rewrite E. discriminate.
  - destruct (Init_tail_done_uart (UART2 (Init_armed w)) b w0 Hb)
      as (w2 & E & Hu2).
    rewrite E. intros Ew. injection Ew as <-. rewrite Hu2, Hu. reflexivity.
Qed.

(** How [hwinit] ends, from how the console initialization ends. *)
Lemma hwinit_run fuel (w : World D) :
  hwinit fuel w =
  match init fuel UART2_BASE UART_DEFAULT_BAUDRATE (identified w) with
  | Done _ w1 =>
      Done tt (mkWorld (bus w1)
                 (trace w1 ++ [Call (timer_source (Family w1) (Native w1))])
                 (Family w1) (Native w1) (getRandomDataFn w1) (UART2 w1))
  | Fault w1 => Fault w1
  | Spin w1 => Spin w1
  end.
Proof.
  rewrite hwinit_unfold. unfold bind at 1.
  destruct (init fuel UART2_BASE UART_DEFAULT_BAUDRATE (identified w));
    [apply start_timers_run | reflexivity | reflexivity].
Qed.

Lemma identified_trace (w : World D) :
  trace (identified w) =
  trace w ++ [Call ARM_Init; Call ARM_EnableVFP; Call ARM_CacheEnable;
              Load32 USB_ANALOG_DIGPROG (fst (load32 USB_ANALOG_DIGPROG (bus w)))].
Proof. reflexivity. Qed.

(** X14.  [hwinit] overwrites [Family] with the family byte of the version
    word, but it only ever raises [Native]: a flag already true stays true
    on a chip that reports revision 0.0. *)
Theorem hwinit_never_clears_Native fuel (w : World D) :
  let sv := fst (load32 USB_ANALOG_DIGPROG (bus w)) in
  let w' := world_of (hwinit fuel w) in
  Family w' = Z.shiftr sv 16 mod 2 ^ 8 /\
  Native w' = Native w || negb (sv mod 2 ^ 16 =? 0) /\
  (Native w = true -> Native w' = true).
Proof.
  intros sv w'. destruct (hwinit_globals fuel w) as (Hf & Hn & _).
  fold w' in Hf, Hn.
  assert (HN : Native w' = Native w || negb (sv mod 2 ^ 16 =? 0)).
  { rewrite Hn. cbn [identified Native]. fold sv.
    rewrite !land_255, Z.shiftr_div_pow2 by lia.
    change (2 ^ 16) with 65536. change (2 ^ 8) with 256.
    destruct (Z.eqb_spec (sv / 256 mod 256) 0),
      (Z.eqb_spec (sv mod 256) 0), (Z.eqb_spec (sv mod 65536) 0);
      cbn [negb orb]; rewrite ?orb_true_r, ?orb_false_r; try reflexivity;
      exfalso; Z.div_mod_to_equations; lia. }
  split; [|split; [exact HN|]].
  - rewrite Hf. cbn [identified Family]. fold sv. apply land_255.
  - intros Ht. rewrite HN, Ht. reflexivity.
Qed.

(** X15.  For every family code other than IMX6UL and IMX6ULL, recognized
    or not, a [hwinit] that returned has started the global timers, as its
    last step, and no other timer. *)
Theorem hwinit_other_families_global_timers fuel (w w' : World D) :
  hwinit fuel w = Done tt w' ->
  Family w' <> IMX6UL -> Family w' <> IMX6ULL ->
  exists accesses,
    Forall is_access accesses /\
    trace w' = trace w ++
      [Call ARM_Init; Call ARM_EnableVFP; Call ARM_CacheEnable;
       Load32 USB_ANALOG_DIGPROG (fst (load32 USB_ANALOG_DIGPROG (bus w)))] ++
      accesses ++ [Call ARM_InitGlobalTimers].
Proof.
  intros E H1 H2. rewrite hwinit_run in E.
  pose proof (quiet_init fuel UART2_BASE UART_DEFAULT_BAUDRATE (identified w))
    as [_ (l & Hl & Hacc)].
  destruct (init fuel UART2_BASE UART_DEFAULT_BAUDRATE (identified w))
    as [[] w1 | w1 | w1]; [|discriminate..].
  cbn [world_of] in Hl. injection E as <-. cbn [Family trace] in *.
  exists l. split; [exact Hacc|].
  rewrite Hl, identified_trace, <- !app_assoc. cbn [app].
  do 7 f_equal. unfold timer_source.
  apply Z.eqb_neq in H1, H2. rewrite H1, H2. cbn [orb].
  now destruct (Family w1 =? IMX6Q).
Qed.

(** X16.  A [hwinit] still pending in the initialization of the console has
    set up the CPU and recorded the identification, and has started no
    timer: beyond the three CPU calls that open it, it has made only
    register accesses. *)
Theorem hwinit_pending_no_timer fuel (w w' : World D) :
  hwinit fuel w = Spin w' ->
  let sv := fst (load32 USB_ANALOG_DIGPROG (bus w)) in
  exists accesses,
    Forall is_access accesses /\
    trace w' = trace w ++
      [Call ARM_Init; Call ARM_EnableVFP; Call ARM_CacheEnable;
       Load32 USB_ANALOG_DIGPROG sv] ++ accesses /\
    Family w' = Z.shiftr sv 16 mod 2 ^ 8 /\
    unlocked (UART2 w') = Uart_at false UART2_BASE.
Proof.
  intros E sv. rewrite hwinit_run in E.
  pose proof (quiet_init fuel UART2_BASE UART_DEFAULT_BAUDRATE (identified w))
    as [(Hf & _) (l & Hl & Hacc)].
  pose proof (Init_block fuel UART_DEFAULT_BAUDRATE
                (mkWorld (bus (identified w)) (trace (identified w))
                         (Family (identified w)) (Native (identified w))
                         (getRandomDataFn (identified w))
                         (Uart_at (mu (UART2 (identified w))) UART2_BASE)))
    as Hblk.
  rewrite <- init_unfold in Hblk.
  destruct (init fuel UART2_BASE UART_DEFAULT_BAUDRATE (identified w))
    as [[] w1 | w1 | w1]; [discriminate | discriminate |].
  cbn [world_of] in Hl, Hf, Hblk. injection E as <-.
  exists l. split; [exact Hacc|]. split; [|split].
  - rewrite Hl, identified_trace, <- !app_assoc. reflexivity.
  - rewrite Hf. cbn [identified Family]. fold sv. apply land_255.
  - exact Hblk.
Qed.

(** X17.  A [hwinit] that returned leaves the console UART with the
    addresses of the UART2 block and its mutex free, so that a [Write] that
    follows stores its byte at UART2_BASE + 0x40 and polls
    UART2_BASE + 0xb4. *)
Theorem hwinit_console_ready fuel (w w' : World D) :
  hwinit fuel w = Done tt w' ->
  UART2 w' = Uart_at false UART2_BASE /\
  forall fuel' c,
  exists polls,
    trace (world_of (Write fuel' c w')) =
    trace w' ++ Store32 (UART2_BASE + UARTx_UTXD) c ::
                map (Load32 (UART2_BASE + UARTx_UTS)) polls.
Proof.
  intros E. rewrite hwinit_run in E.
  destruct (init fuel UART2_BASE UART_DEFAULT_BAUDRATE (identified w))
    as [[] w1 | w1 | w1] eqn:Ei; [|discriminate..].
  rewrite init_unfold in Ei. apply Init_done_uart in Ei.
  cbn [UART2 unlocked Uart_at urxd utxd ucr1 ucr2 ucr3 ucr4 ufcr usr2 uesc
       utim ubir ubmr uts] in Ei.
  injection E as <-. cbn [UART2].
  assert (Hu : UART2 w1 = Uart_at false UART2_BASE) by exact Ei.
  split; [exact Hu|]. intros fuel' c. rewrite Write_unfold.
  cbn [UART2]. rewrite Hu.
  match goal with
  | |- context [reg_Wait fuel' ?a ?p ?m ?v ?W] =>
      destruct (reg_Wait_trace a p m v fuel' W) as (polls & Ht & _)
  end.
  exists polls. rewrite Ht. cbn [trace]. rewrite <- app_assoc. reflexivity.
Qed.

(** X18.  From boot to the entropy source: after [hwinit], entered with
    [Native] at its initial value, [initRNG] binds the hardware generator
    exactly when the family byte of the version word is 0x65 and its
    sixteen revision bits are not all zero, and the software generator
    otherwise; whether [hwinit] has returned does not matter. *)
Theorem bringup_selects_entropy fuel (w : World D) :
  Native w = false ->
  let sv := fst (load32 USB_ANALOG_DIGPROG (bus w)) in
  let hardware := Z.shiftr sv 16 mod 2 ^ 8 = 0x65 /\ sv mod 2 ^ 16 <> 0 in
  exists w',
    initRNG (world_of (hwinit fuel w)) = Done tt w' /\
    (getRandomDataFn w' = Some RNGB_getRandomData <-> hardware) /\
    (getRandomDataFn w' = Some getLCGData <-> ~ hardware).
Proof.
  intros Hn0 sv hardware.
  destruct (hwinit_globals fuel w) as (Hf & Hn & _).
  set (wb := world_of (hwinit fuel w)) in *.
  assert (HF : Family wb = Z.shiftr sv 16 mod 2 ^ 8).
  { rewrite Hf. cbn [identified Family]. fold sv. apply land_255. }
  assert (HN : Native wb = negb (sv mod 2 ^ 16 =? 0)).
  { rewrite Hn. cbn [identified Native]. fold sv. rewrite Hn0.
    rewrite !land_255, Z.shiftr_div_pow2 by lia.
    change (2 ^ 16) with 65536. change (2 ^ 8) with 256.
    destruct (Z.eqb_spec (sv / 256 mod 256) 0),
      (Z.eqb_spec (sv mod 256) 0), (Z.eqb_spec (sv mod 65536) 0);
      cbn [negb orb]; try reflexivity;
      exfalso; Z.div_mod_to_equations; lia. }
  unfold initRNG, bind, get_Family, get_Native. rewrite HF, HN.
  subst hardware. unfold IMX6ULL.
  destruct (Z.eqb_spec (Z.shiftr sv 16 mod 2 ^ 8) 101) as [Ef | Ef];
    destruct (Z.eqb_spec (sv mod 2 ^ 16) 0) as [Er | Er];
    cbn [andb negb]; eexists; (split; [reflexivity|]);
    cbn [getRandomDataFn]; split; split;
    intuition (try congruence; try discriminate).
Qed.

End BringupMore.

Lemma hwinit_unknown_family_returns :
  hwinit 3 (boot (sim_version 0x00700000)) =
  Done tt (world_of (hwinit 3 (boot (sim_version 0x00700000)))).
Proof. vm_compute. reflexivity. Qed.

Lemma hwinit_other_families_global_timers_witness :
  exists accesses,
    Forall is_access accesses /\
    trace (world_of (hwinit 3 (boot (sim_version 0x00700000)))) =
      trace (boot (sim_version 0x00700000)) ++
      [Call ARM_Init; Call ARM_EnableVFP; Call ARM_CacheEnable;
       Load32 USB_ANALOG_DIGPROG
         (fst (load32 USB_ANALOG_DIGPROG
                 (bus (boot (sim_version 0x00700000)))))] ++
      accesses ++ [Call ARM_InitGlobalTimers].
Proof.
  exact (hwinit_other_families_global_timers
           3 (boot (sim_version 0x00700000)) _
           hwinit_unknown_family_returns
           ltac:(vm_compute; discriminate) ltac:(vm_compute; discriminate)).
Defined.

Lemma hwinit_short_of_polls :
  hwinit 2 (boot (sim_version 0x00640000)) =
  Spin (world_of (hwinit 2 (boot (sim_version 0x00640000)))).
Proof. vm_compute. reflexivity. Qed.

Lemma hwinit_pending_no_timer_witness :
  unlocked (UART2 (world_of (hwinit 2 (boot (sim_version 0x00640000))))) =
  Uart_at false UART2_BASE.
Proof.
  destruct (hwinit_pending_no_timer 2 (boot (sim_version 0x00640000)) _
                                    hwinit_short_of_polls)
    as (accesses & _ & _ & _ & Hu).
  exact Hu.
Defined.

Lemma hwinit_native_returns :
  hwinit 3 (boot (sim_version 0x00650102)) =
  Done tt (world_of (hwinit 3 (boot (sim_version 0x00650102)))).
Proof. vm_compute. reflexivity. Qed.

Lemma hwinit_console_ready_witness :
  UART2 (world_of (hwinit 3 (boot (sim_version 0x00650102)))) =
  Uart_at false UART2_BASE.
Proof.
  exact (proj1 (hwinit_console_ready 3 (boot (sim_version 0x00650102)) _
                                     hwinit_native_returns)).
Defined.

Lemma bringup_selects_entropy_witness :
  exists w',
    initRNG (world_of (hwinit 3 (boot (sim_version 0x00650102)))) = Done tt w' /\
    getRandomDataFn w' = Some RNGB_getRandomData.
Proof.
  destruct (bringup_selects_entropy 3 (boot (sim_version 0x00650102)) eq_refl)
    as (w' & E & Hhw & _).
  exists w'. split; [exact E|]. apply Hhw.
  split; [vm_compute; reflexivity | vm_compute; discriminate].
Defined.
